(** * storm_surge/square_basin/setrun.py: run-time parameters of the
    square-basin storm-surge run

    A shallow embedding of [setrun], [setgeo] and [set_storm].  The
    Python objects [clawdata], [geodata] and the storm data are attribute
    stores (finite maps from attribute names to values); an attribute
    assignment [obj.a = v] is an insertion.  Exceptions are an error
    monad.  The source is Python 2: [/] between two ints is floor
    division, between an int and a float it is float division.

    Floats are an interface, [PyFloat].  Its instance for the code is
    IEEE binary64 ([spec_float] with round to nearest even).  A second
    instance, exact rationals, is an idealisation without rounding and
    without overflow: it is not what Python computes, and serves where
    the arithmetic does not matter or as a term of comparison. *)

From Stdlib Require Import ZArith QArith Qround Qabs SpecFloat Ascii String Sorted Lia Lqa.
From stdpp Require Import gmap strings list fin_maps.

Local Open Scope Z_scope.

(** ** Exceptions *)

Inductive exn :=
| AssertionError (msg : string)
| AttributeError (msg : string)
| ZeroDivisionError
| OverflowError
| ValueError.

Definition result (A : Type) : Type := exn + A.

Definition ret {A} (a : A) : result A := inr a.
Definition raise {A} (e : exn) : result A := inl e.
Definition bind {A B} (m : result A) (k : A -> result B) : result B :=
  match m with
  | inl e => inl e
  | inr a => k a
  end.

Notation "'let*' x := m 'in' k" := (bind m (fun x => k))
  (at level 10, x name, m at level 100, k at level 200).

(** [assert c, msg] *)
Definition assert (c : bool) (msg : string) : result unit :=
  if c then ret tt else raise (AssertionError msg).

(** ** Floats *)

Class PyFloat (F : Type) := {
  (** [float(n)] for an int [n] *)
  float_of_int : Z -> result F;
  (** the literal [m e k], that is m * 10^k *)
  float_lit : Z -> Z -> F;
  fadd : F -> F -> F;
  fmul : F -> F -> F;
  fneg : F -> F;
  (** [x / y] on floats; division by zero raises *)
  fdiv : F -> F -> result F;
  (** [np.ceil] *)
  np_ceil : F -> F;
  (** [int(x)]: truncation towards zero *)
  int_of_float : F -> result Z
}.

(** *** Exact rationals

    An idealisation: no rounding, [float(n)] and [int(x)] never raise. *)

Definition Qtrunc (x : Q) : Z := Z.quot (Qnum x) (Zpos (Qden x)).

Definition Qlit (m k : Z) : Q :=
  if 0 <=? k then inject_Z (m * 10 ^ k)
  else Qmake m (Z.to_pos (10 ^ (- k))).

Definition Qfdiv (x y : Q) : result Q :=
  if Qeq_bool y 0 then raise ZeroDivisionError else ret (x / y)%Q.

#[export] Instance Q_float : PyFloat Q := {
  float_of_int z := ret (inject_Z z);
  float_lit := Qlit;
  fadd := Qplus;
  fmul := Qmult;
  fneg := Qopp;
  fdiv := Qfdiv;
  np_ceil x := inject_Z (Qceiling x);
  int_of_float x := ret (Qtrunc x)
}.

(** *** IEEE binary64 *)

Module B64.

Definition prec : Z := 53.
Definition emax : Z := 1024.

Definition of_Z (z : Z) : spec_float := binary_normalize prec emax z 0 false.

(** [float(n)] raises when [n] is beyond the largest double. *)
Definition of_int (z : Z) : result spec_float :=
  match of_Z z with
  | S754_infinity _ => raise OverflowError
  | x => ret x
  end.

(** A decimal literal, rounded to nearest: for a negative exponent the
    quotient of two doubles, which is the correctly rounded value when
    the mantissa is below 2^53 and the exponent is at least -22, as in
    every literal of the source. *)
Definition of_decimal (m k : Z) : spec_float :=
  if 0 <=? k then of_Z (m * 10 ^ k)
  else SFdiv prec emax (of_Z m) (of_Z (10 ^ (- k))).

Definition div (x y : spec_float) : result spec_float :=
  if SFeqb y (S754_zero false) then raise ZeroDivisionError
  else ret (SFdiv prec emax x y).

Definition ceil (x : spec_float) : spec_float :=
  match x with
  | S754_finite s m e =>
      if 0 <=? e then x
      else
        let d := 2 ^ (- e) in
        let q := Zpos m / d in
        if s then
          if q =? 0 then S754_zero true else of_Z (- q)
        else
          if Zpos m mod d =? 0 then of_Z q else of_Z (q + 1)
  | _ => x
  end.

Definition to_int (x : spec_float) : result Z :=
  match x with
  | S754_zero _ => ret 0
  | S754_finite s m e =>
      let a := if 0 <=? e then Zpos m * 2 ^ e else Zpos m / 2 ^ (- e) in
      ret (if s then - a else a)
  | S754_infinity _ => raise OverflowError
  | S754_nan => raise ValueError
  end.

(** Zeros and finite doubles, as opposed to infinities and NaN. *)
Definition is_finite (x : spec_float) : bool :=
  match x with
  | S754_zero _ | S754_finite _ _ _ => true
  | _ => false
  end.

(** The number that a finite double stands for, m * 2^e with its sign
    (0 for an infinity and for NaN). *)
Definition to_Q (x : spec_float) : Q :=
  match x with
  | S754_finite s m e =>
      let v := if 0 <=? e then inject_Z (Zpos m * 2 ^ e)
               else Qmake (Zpos m) (Z.to_pos (2 ^ (- e))) in
      if s then Qopp v else v
  | _ => 0%Q
  end.

End B64.

#[export] Instance b64_float : PyFloat spec_float := {
  float_of_int := B64.of_int;
  float_lit := B64.of_decimal;
  fadd := SFadd B64.prec B64.emax;
  fmul := SFmul B64.prec B64.emax;
  fneg := SFopp;
  fdiv := B64.div;
  np_ceil := B64.ceil;
  int_of_float := B64.to_int
}.

(** ** Python numbers and values *)

Inductive num (F : Type) :=
| Int (z : Z)
| Float (f : F).
Arguments Int {F} z.
Arguments Float {F} f.

#[warnings="-register-all"] Inductive value (F : Type) :=
| VNum (n : num F)
| VBool (b : bool)
| VStr (s : string)
| VList (l : list (value F))
| VTuple (l : list (value F)).
Arguments VNum {F} n.
Arguments VBool {F} b.
Arguments VStr {F} s.
Arguments VList {F} l.
Arguments VTuple {F} l.

Section Arith.
Context {F : Type} `{PyFloat F}.

(** The coercion of mixed arithmetic. *)
Definition to_float (x : num F) : result F :=
  match x with
  | Int z => float_of_int z
  | Float f => ret f
  end.

Definition py_neg (x : num F) : num F :=
  match x with
  | Int z => Int (- z)
  | Float f => Float (fneg f)
  end.

Definition py_add (x y : num F) : result (num F) :=
  match x, y with
  | Int a, Int b => ret (Int (a + b))
  | _, _ => let* a := to_float x in let* b := to_float y in ret (Float (fadd a b))
  end.

Definition py_mul (x y : num F) : result (num F) :=
  match x, y with
  | Int a, Int b => ret (Int (a * b))
  | _, _ => let* a := to_float x in let* b := to_float y in ret (Float (fmul a b))
  end.

(** Python 2 [/]: floor division on two ints. *)
Definition py_div (x y : num F) : result (num F) :=
  match x, y with
  | Int a, Int b =>
      if b =? 0 then raise ZeroDivisionError else ret (Int (a / b))
  | _, _ =>
      let* a := to_float x in let* b := to_float y in let* q := fdiv a b in ret (Float q)
  end.

(** [x ** 2], which the file applies to 60 and to 60.0. *)
Definition py_sq (x : num F) : num F :=
  match x with
  | Int z => Int (z ^ 2)
  | Float f => Float (fmul f f)
  end.

(** [np.ceil(x)]: always a float. *)
Definition py_ceil (x : num F) : result (num F) :=
  let* a := to_float x in ret (Float (np_ceil a)).

(** [int(x)] *)
Definition py_int (x : num F) : result Z :=
  match x with
  | Int z => ret z
  | Float f => int_of_float f
  end.

End Arith.

(** ** Strings *)

(** [str.lower] on the ASCII letters. *)
Definition lower_ascii (c : ascii) : ascii :=
  let n := N_of_ascii c in
  if ((65 <=? n) && (n <=? 90))%N then ascii_of_N (n + 32) else c.

Fixpoint lower (s : string) : string :=
  match s with
  | EmptyString => EmptyString
  | String c s' => String (lower_ascii c) (lower s')
  end.

(** ** Objects *)

(** An object is its attributes. *)
Abbreviation obj F := (gmap string (value F)).

(** Modelled from the spec: the class [ClawRunData] of clawpack's
    [oldclawdata], which is imported and not defined in this file.  The
    spec has the configuration objects "constructed fresh per
    invocation, populated once", and names a "missing required attribute
    on the geophysical object" as an error.  What the file uses of the
    class is the arguments of its constructor and the two attributes
    [clawdata] and [geodata]; run data may lack [geodata], the case
    [setgeo] guards against. *)
Record ClawRunData (F : Type) := {
  pkg : string;
  ndim : Z;
  clawdata : obj F;
  geodata : option (obj F)
}.
Arguments pkg {F} _.
Arguments ndim {F} _.
Arguments clawdata {F} _.
Arguments geodata {F} _.

(** Modelled from the spec: the constructor [data.ClawRunData], for the
    geoclaw package.  The objects are fresh: both parameter sets are
    there, and nothing is set on them yet. *)
Definition new_ClawRunData {F} (claw_pkg : string) (nd : Z) : ClawRunData F :=
  {| pkg := claw_pkg; ndim := nd; clawdata := ∅; geodata := Some ∅ |}.

(** The object [r] after its attribute [clawdata], or [geodata], has
    been mutated into [o]. *)
Definition with_clawdata {F} (r : ClawRunData F) (o : obj F) : ClawRunData F :=
  {| pkg := pkg r; ndim := ndim r; clawdata := o; geodata := geodata r |}.
Definition with_geodata {F} (r : ClawRunData F) (o : obj F) : ClawRunData F :=
  {| pkg := pkg r; ndim := ndim r; clawdata := clawdata r; geodata := Some o |}.

(** [xrange(a, b)], for bounds within the machine integers. *)
Definition xrange (a b : Z) : list Z := seqZ a (b - a).

(** [for x in l: body], on a state [s]. *)
Fixpoint for_each {A S : Type} (l : list A) (body : A -> S -> result S) (s : S)
  : result S :=
  match l with
  | [] => ret s
  | a :: l' => let* s' := body a s in for_each l' body s'
  end.

(** ** The module *)

Section Setrun_py.
Context {F : Type} `{PyFloat F}.

(** A float literal [m e k]. *)
Definition lit (m k : Z) : num F := Float (float_lit m k).

Definition vint (z : Z) : value F := VNum (Int z).
Definition vlit (m k : Z) : value F := VNum (lit m k).
Definition vnums (l : list (num F)) : value F := VList (VNum <$> l).

(** The module's global (line 15). *)
Variable RAMP_UP_TIME : num F.

(** *** setgeo *)

Section Run.
(** [N_gauges] (line 328) *)
Variable N_gauges : Z.

(** Line 332:
    [y = 550e3 / (N_gauges + 1) * (i+1) + -275e3] *)
Definition gauge_y (i : Z) : result (num F) :=
  let* n1 := py_add (Int N_gauges) (Int 1) in
  let* w := py_div (lit 550 3) n1 in
  let* i1 := py_add (Int i) (Int 1) in
  let* p := py_mul w i1 in
  py_add p (py_neg (lit 275 3)).

(** The body of the loop of lines 329-334, on the list that
    [geodata.gauges] is bound to; what it prints is left out. *)
Definition place_gauge (i : Z) (gauges : list (value F))
  : result (list (value F)) :=
  let x := lit 455 3 in
  let* y := gauge_y i in
  ret (gauges ++ [VList [vint i; VNum x; VNum y; vlit 0 0; vlit 1 10]]).

Definition setgeo (rundata : ClawRunData F) : result (ClawRunData F) :=
  match geodata rundata with
  | None => raise (AttributeError "Missing geodata attribute")
  | Some geodata =>
      (* == setgeo.data values == *)
      let geodata := <["variable_dt_refinement_ratios" := VBool true]> geodata in
      let geodata := <["gravity" := vlit 981 (-2)]> geodata in
      let geodata := <["coordinate_system" := vint 1]> geodata in
      let geodata := <["earth_radius" := vlit 63675 2]> geodata in
      let geodata := <["coriolis_forcing" := VBool true]> geodata in
      let geodata := <["theta_0" := vlit 45 0]> geodata in
      (* == settsunami.data values == *)
      let geodata := <["dry_tolerance" := vlit 1 (-2)]> geodata in
      let geodata := <["wave_tolerance" := vlit 5 (-1)]> geodata in
      let geodata := <["speed_tolerance" :=
        vnums [lit 25 (-2); lit 5 (-1); lit 1 0; lit 2 0; lit 3 0; lit 4 0]]>
        geodata in
      let geodata := <["deep_depth" := vlit 2 2]> geodata in
      let geodata := <["max_level_deep" := vint 4]> geodata in
      let geodata := <["friction_forcing" := vint 1]> geodata in
      let geodata := <["manning_coefficient" := vlit 25 (-3)]> geodata in
      let geodata := <["friction_depth" := vlit 1 6]> geodata in
      (* == settopo.data values == *)
      let geodata := <["topofiles" := VList []]> geodata in
      let geodata := <["topo_type" := vint 2]> geodata in
      let geodata := <["x0" := vlit 350 3]> geodata in
      let geodata := <["x1" := vlit 450 3]> geodata in
      let geodata := <["x2" := vlit 480 3]> geodata in
      let geodata := <["basin_depth" := VNum (py_neg (lit 3000 0))]> geodata in
      let geodata := <["shelf_depth" := VNum (py_neg (lit 200 0))]> geodata in
      let geodata := <["beach_slope" := vlit 5 (-2)]> geodata in
      (* == setdtopo.data values == *)
      let geodata := <["dtopofiles" := VList []]> geodata in
      (* == setqinit.data values == *)
      let geodata := <["qinit_type" := vint 0]> geodata in
      let geodata := <["qinitfiles" := VList []]> geodata in
      (* == setregions.data values == *)
      let geodata := <["regions" := VList []]> geodata in
      (* == setgauges.data values == *)
      let* gauges := for_each (xrange 0 N_gauges) place_gauge [] in
      let geodata := <["gauges" := VList gauges]> geodata in
      (* == setfixedgrids.data values == *)
      let geodata := <["fixedgrids" := VList []]> geodata in
      (* == Multilayer == *)
      let geodata := <["layers" := vint 1]> geodata in
      let geodata := <["rho" := vlit 1025 0]> geodata in
      let geodata := <["eta_init" := vlit 0 0]> geodata in
      let geodata := <["richardson_tolerance" := vlit 95 (-2)]> geodata in
      ret (with_geodata rundata geodata)
  end.

(** *** setrun *)

(** [clawdata.outstyle] (line 109), [num_hours] (line 111), [step]
    (line 113: 0.25 in the file, "1 = every hour" in its comment) and
    the list [clawdata.tout] of style 2 (line 128). *)
Variable outstyle : Z.
Variable num_hours : num F.
Variable step : num F.
Variable tout : list (num F).

(** [clawdata] is the object [rundata.clawdata] itself: what is set
    on it is set in [rundata]. *)
Definition setrun (claw_pkg : string) : result (ClawRunData F) :=
  let* _ := assert (String.eqb (lower claw_pkg) "geoclaw")
                   "Expected claw_pkg = 'geoclaw'" in
  let ndim := 2 in
  let rundata := new_ClawRunData claw_pkg ndim in
  let* rundata := setgeo rundata in
  let clawdata := clawdata rundata in
  (* Spatial domain *)
  let clawdata := <["ndim" := vint ndim]> clawdata in
  let clawdata := <["xlower" := VNum (py_neg (lit 200 3))]> clawdata in
  let clawdata := <["xupper" := vlit 500 3]> clawdata in
  let clawdata := <["ylower" := VNum (py_neg (lit 300 3))]> clawdata in
  let clawdata := <["yupper" := vlit 300 3]> clawdata in
  let clawdata := <["mx" := vint 70]> clawdata in
  let clawdata := <["my" := vint 60]> clawdata in
  (* Size of system *)
  let clawdata := <["meqn" := vint 3]> clawdata in
  let clawdata := <["maux" := vint 9]> clawdata in
  let clawdata := <["mcapa" := vint 0]> clawdata in
  (* Initial time *)
  let clawdata := <["t0" := VNum (py_neg RAMP_UP_TIME)]> clawdata in
  (* Output times *)
  let clawdata := <["outstyle" := vint outstyle]> clawdata in
  let* clawdata :=
    if outstyle =? 1 then
      let* q := py_div num_hours step in
      let* a := py_int q in
      let* d := py_mul step (py_sq (Int 60)) in
      let* r := py_div RAMP_UP_TIME d in
      let* c := py_ceil r in
      let* b := py_int c in
      let clawdata := <["nout" := vint (a + b)]> clawdata in
      let* tfinal := py_mul num_hours (py_sq (lit 60 0)) in
      ret (<["tfinal" := VNum tfinal]> clawdata)
    else if outstyle =? 2 then
      let clawdata := <["tout" := vnums tout]> clawdata in
      ret (<["nout" := vint (Z.of_nat (length tout))]> clawdata)
    else if outstyle =? 3 then
      let iout := 1 in
      let ntot := 100 in
      ret (<["iout" := VList [vint iout; vint ntot]]> clawdata)
    else ret clawdata in
  (* Verbosity of messages to screen during integration *)
  let clawdata := <["verbosity" := vint 2]> clawdata in
  (* Time stepping *)
  let clawdata := <["dt_variable" := vint 1]> clawdata in
  let clawdata := <["dt_initial" := vlit 16 (-3)]> clawdata in
  let clawdata := <["dt_max" := vlit 1 99]> clawdata in
  let clawdata := <["cfl_desired" := vlit 75 (-2)]> clawdata in
  let clawdata := <["cfl_max" := vlit 1 0]> clawdata in
  let clawdata := <["max_steps" := vint 5000]> clawdata in
  (* Method to be used *)
  let clawdata := <["order" := vint 2]> clawdata in
  let clawdata := <["order_trans" := vint 2]> clawdata in
  let clawdata := <["mwaves" := vint 3]> clawdata in
  let clawdata := <["mthlim" := VList [vint 3; vint 3; vint 3]]> clawdata in
  let clawdata := <["src_split" := vint 1]> clawdata in
  (* Boundary conditions *)
  let clawdata := <["mbc" := vint 2]> clawdata in
  let clawdata := <["mthbc_xlower" := vint 1]> clawdata in
  let clawdata := <["mthbc_xupper" := vint 1]> clawdata in
  let clawdata := <["mthbc_ylower" := vint 1]> clawdata in
  let clawdata := <["mthbc_yupper" := vint 1]> clawdata in
  (* AMR parameters *)
  let mxnest := 5 in
  let clawdata := <["mxnest" := vint (- mxnest)]> clawdata in
  let clawdata := <["inratx" := VList [vint 2; vint 2; vint 2; vint 2; vint 2]]>
                    clawdata in
  let clawdata := <["inraty" := VList [vint 2; vint 2; vint 2; vint 2; vint 2]]>
                    clawdata in
  let clawdata := <["inratt" := VList [vint 2; vint 2; vint 2; vint 2; vint 2]]>
                    clawdata in
  let clawdata := <["auxtype" := VList (replicate 9 (VStr "center"))]> clawdata in
  let clawdata := <["tol" := VNum (py_neg (lit 1 0))]> clawdata in
  let clawdata := <["tolsp" := vlit 5 (-1)]> clawdata in
  let clawdata := <["cutoff" := vlit 7 (-1)]> clawdata in
  let clawdata := <["kcheck" := vint 3]> clawdata in
  let clawdata := <["ibuff" := vint 2]> clawdata in
  ret (with_clawdata rundata clawdata).
End Run.

(** *** set_storm *)

Section Storm.
(** [data.wind_refine] and [data.R_refine] (lines 371-372), the
    central pressure in millibars (line 386), and numpy's cosine and
    sine. *)
Variable wind_refine R_refine : list (num F).
Variable Pc_mbar : F.
Variable np_cos np_sin : F -> F.

(** [geoclaw.surge.StormData()] is an object of another package,
    constructed fresh; the file only sets attributes on it. *)
Definition set_storm : result (obj F) :=
  let data : obj F := ∅ in
  (* Physics parameters *)
  let data := <["rho_air" := vlit 115 (-2)]> data in
  let data := <["ambient_pressure" := vlit 1015 2]> data in
  (* Source term controls *)
  let data := <["wind_forcing" := VBool true]> data in
  let data := <["pressure_forcing" := VBool true]> data in
  (* Source term algorithm parameters *)
  let data := <["wind_tolerance" := vlit 1 (-6)]> data in
  let data := <["pressure_tolerance" := vlit 1 (-4)]> data in
  (* AMR parameters, in m/s and meters respectively *)
  let data := <["wind_refine" := vnums wind_refine]> data in
  let data := <["R_refine" := vnums R_refine]> data in
  (* Storm parameters *)
  let data := <["storm_type" := vint 2]> data in
  let velocity := lit 5 0 in
  let angle := float_lit 0 0 in
  let data := <["ramp_up_t" := VNum RAMP_UP_TIME]> data in
  let* vx := py_mul velocity (Float (np_cos angle)) in
  let* vy := py_mul velocity (Float (np_sin angle)) in
  let data := <["velocity" := VTuple [VNum vx; VNum vy]]> data in
  let data := <["R_eye_init" := VTuple [vlit 0 0; vlit 0 0]]> data in
  let data := <["A" := vlit 23 0]> data in
  let data := <["B" := vlit 15 (-1)]> data in
  let* Pc := py_mul (Float Pc_mbar) (lit 1 2) in
  let data := <["Pc" := VNum Pc]> data in
  ret data.
End Storm.
End Setrun_py.

(** *** The script (lines 390-402) *)

(** What the script hands to the writers of clawpack, in order.  The
    two [write] methods belong to clawpack; they are taken to return. *)
Inductive written (F : Type) :=
| WroteRunData (rundata : ClawRunData F)
| WroteStorm (storm_data : obj F).
Arguments WroteRunData {F} rundata.
Arguments WroteStorm {F} storm_data.

Section Script.
Context {F : Type} `{PyFloat F}.
Variable RAMP_UP_TIME : num F.
Variable N_gauges : Z.
Variable outstyle : Z.
Variable num_hours : num F.
Variable step : num F.
Variable tout : list (num F).
Variable wind_refine R_refine : list (num F).
Variable Pc_mbar : F.
Variable np_cos np_sin : F -> F.

(** The block under [if __name__ == '__main__'], on [sys.argv]: what has
    been written, and how the script ends.  [setrun()] is
    [setrun('geoclaw')], the default of line 18. *)
Definition main (argv : list string) : list (written F) * result unit :=
  let rundata :=
    match argv with
    | [_; claw_pkg] =>
        (* len(sys.argv) == 2 *)
        setrun RAMP_UP_TIME N_gauges outstyle num_hours step tout claw_pkg
    | _ =>
        setrun RAMP_UP_TIME N_gauges outstyle num_hours step tout "geoclaw"
    end in
  match rundata with
  | inl e => ([], inl e)
  | inr rundata =>
      let out := [WroteRunData rundata] in
      match set_storm RAMP_UP_TIME wind_refine R_refine Pc_mbar np_cos np_sin with
      | inl e => (out, inl e)
      | inr storm_data => (out ++ [WroteStorm storm_data], inr tt)
      end
  end.
End Script.

(** ** The file as it is written *)

Module AsWritten.
Section Constants.
Context {F : Type} `{PyFloat F}.

(** Line 15: [RAMP_UP_TIME = 12 * 60**2] *)
Definition RAMP_UP_TIME : num F := Int (12 * 60 ^ 2).

Definition N_gauges : Z := 21.
Definition outstyle : Z := 1.
Definition num_hours : num F := Int 40.
Definition step : num F := lit 25 (-2).
Definition tout : list (num F) := [lit 0 0; lit 1 0; lit 2 0; lit 3 0; lit 4 0].

Definition wind_refine : list (num F) := [lit 20 0; lit 40 0; lit 60 0].
Definition R_refine : list (num F) := [lit 60 3; lit 40 3; lit 20 3].
Definition Pc_mbar : F := float_lit 950 0.

Definition setgeo (rundata : ClawRunData F) : result (ClawRunData F) :=
  setgeo N_gauges rundata.

Definition setrun (claw_pkg : string) : result (ClawRunData F) :=
  setrun RAMP_UP_TIME N_gauges outstyle num_hours step tout claw_pkg.

Definition set_storm (np_cos np_sin : F -> F) : result (obj F) :=
  set_storm RAMP_UP_TIME wind_refine R_refine Pc_mbar np_cos np_sin.

Definition main (np_cos np_sin : F -> F) (argv : list string)
  : list (written F) * result unit :=
  main RAMP_UP_TIME N_gauges outstyle num_hours step tout
    wind_refine R_refine Pc_mbar np_cos np_sin argv.
End Constants.
End AsWritten.

(** ** The vocabulary of the properties *)

(** The value of a number. *)
Definition Qval (x : num Q) : Q :=
  match x with
  | Int z => inject_Z z
  | Float f => f
  end.

(** The y-coordinate that line 332 computes for gauge [i] of [N], in
    exact arithmetic. *)
Definition gauge_pos (N i : Z) : Q :=
  (550000 / inject_Z (N + 1) * inject_Z (i + 1) + - 275000)%Q.

(** The row [[i, x, y, 0.0, 1e10]] of gauge [i]. *)
Definition gauge_row (i : Z) (y : Q) : value Q :=
  VList [VNum (Int i); VNum (Float 455000%Q); VNum (Float y);
         VNum (Float 0%Q); VNum (Float 10000000000%Q)].

(** The span along the shore of line 332: it starts at -275e3 and is
    550e3 wide. *)
Definition y_min : Q := (-275000)%Q.
Definition y_max : Q := 275000%Q.

(** The attribute [k] of the [clawdata], or of the [geodata], that a run
    returns. *)
Definition attr {F} (k : string) (x : result (ClawRunData F)) : option (value F) :=
  match x with
  | inr r => clawdata r !! k
  | inl _ => None
  end.

Definition geo_attr {F} (k : string) (x : result (ClawRunData F))
  : option (value F) :=
  match x with
  | inr r => g ← geodata r; g !! k
  | inl _ => None
  end.

(** The run data of a run depend on the package name only in the
    argument that the constructor has received. *)
Definition with_pkg {F} (claw_pkg : string) (r : ClawRunData F) : ClawRunData F :=
  {| pkg := claw_pkg; ndim := ndim r; clawdata := clawdata r;
     geodata := geodata r |}.

(** The attributes that [setgeo] assigns. *)
Definition setgeo_attributes : list string :=
  ["variable_dt_refinement_ratios"; "gravity"; "coordinate_system";
   "earth_radius"; "coriolis_forcing"; "theta_0";
   "dry_tolerance"; "wave_tolerance"; "speed_tolerance"; "deep_depth";
   "max_level_deep"; "friction_forcing"; "manning_coefficient";
   "friction_depth";
   "topofiles"; "topo_type"; "x0"; "x1"; "x2"; "basin_depth"; "shelf_depth";
   "beach_slope";
   "dtopofiles"; "qinit_type"; "qinitfiles"; "regions"; "gauges";
   "fixedgrids"; "layers"; "rho"; "eta_init"; "richardson_tolerance"].

(** The length of a list value. *)
Definition vlen {F} (v : value F) : option Z :=
  match v with
  | VList l => Some (Z.of_nat (length l))
  | _ => None
  end.

(** The y-coordinate of a gauge row [[i, x, y, t1, t2]]. *)
Definition row_y {F} (row : value F) : option F :=
  match row with
  | VList [_; _; VNum (Float y); _; _] => Some y
  | _ => None
  end.

(** The y-coordinates of the gauges that [setgeo] places for [N], in
    binary64; [None] if it raises. *)
Definition gauges_y_binary64 (N : Z) : option (list spec_float) :=
  match geo_attr "gauges" (setgeo N (new_ClawRunData "geoclaw" 2)) with
  | Some (VList rows) => mapM row_y rows
  | _ => None
  end.

(** [x < y] on each two neighbours of a list of doubles. *)
Fixpoint increasing_binary64 (l : list spec_float) : bool :=
  match l with
  | x :: (y :: _) as l' => SFltb x y && increasing_binary64 l'
  | _ => true
  end.

(** In binary64: [N] gauges, each strictly between -275000.0 and
    275000.0, in strictly increasing order. *)
Definition gauges_ordered_binary64 (N : Z) : bool :=
  match gauges_y_binary64 N with
  | Some ys =>
      (Z.of_nat (length ys) =? N)
      && forallb (fun y => SFltb (B64.of_Z (-275000)) y
                           && SFltb y (B64.of_Z 275000)) ys
      && increasing_binary64 ys
  | None => false
  end.

(** In binary64, for [h] hours and the other constants of the file:
    [nout] is [4 * h + 48] and [tfinal] is the double [3600 * h]. *)
Definition schedule_exact_binary64 (h : Z) : bool :=
  let x := setrun (F:=spec_float) AsWritten.RAMP_UP_TIME AsWritten.N_gauges 1
             (Int h) AsWritten.step AsWritten.tout "geoclaw" in
  match attr "nout" x, attr "tfinal" x with
  | Some (VNum (Int n)), Some (VNum (Float tf)) =>
      (n =? 4 * h + 48)
      && match SFcompare tf (B64.of_Z (3600 * h)) with
         | Some Eq => true
         | _ => false
         end
  | _, _ => false
  end.

(** The double that line 332 computes for gauge [i] of [N]: each
    operation of 550e3 / (N + 1) * (i + 1) + -275e3 rounded to nearest. *)
Definition gauge_binary64 (N i : Z) : spec_float :=
  SFadd B64.prec B64.emax
    (SFmul B64.prec B64.emax
       (SFdiv B64.prec B64.emax (B64.of_decimal 550 3) (B64.of_Z (N + 1)))
       (B64.of_Z (i + 1)))
    (SFopp (B64.of_decimal 275 3)).

(** The row [[i, 455e3, y, 0.0, 1e10]] of gauge [i], in binary64. *)
Definition gauge_row_binary64 (i : Z) (y : spec_float) : value spec_float :=
  VList [VNum (Int i); VNum (Float (B64.of_Z 455000)); VNum (Float y);
         VNum (Float (S754_zero false)); VNum (Float (B64.of_Z (10 ^ 10)))].

(** The number that a Python number stands for, if it is finite. *)
Definition num_value (x : num spec_float) : option Q :=
  match x with
  | Int z => Some (inject_Z z)
  | Float f => if B64.is_finite f then Some (B64.to_Q f) else None
  end.

(** The tolerance within which the doubles of the gauges are compared
    with exact arithmetic: a nanometre. *)
Definition gauge_tolerance : Q := 1 # 1000000000.


(** In binary64, with [N] gauges and the other constants of the file:
    the run returns, and every gauge is strictly inside the domain that
    the same run stores in [clawdata], at least 25 km from its lower
    and upper edge in y. *)
Definition inside_domain_binary64 (N : Z) : bool :=
  let x := setrun (F:=spec_float) AsWritten.RAMP_UP_TIME N AsWritten.outstyle
             AsWritten.num_hours AsWritten.step AsWritten.tout "geoclaw" in
  match attr "xlower" x, attr "xupper" x, attr "ylower" x, attr "yupper" x,
        geo_attr "gauges" x with
  | Some (VNum (Float xl)), Some (VNum (Float xu)),
    Some (VNum (Float yl)), Some (VNum (Float yu)), Some (VList rows) =>
      (Z.of_nat (length rows) =? N)
      && forallb
           (fun row =>
              match row with
              | VList [_; VNum (Float gx); VNum (Float gy); _; _] =>
                  SFltb xl gx && SFltb gx xu
                  && SFleb (SFadd B64.prec B64.emax yl (B64.of_Z 25000)) gy
                  && SFleb gy (SFsub B64.prec B64.emax yu (B64.of_Z 25000))
              | _ => false
              end) rows
  | _, _, _, _, _ => false
  end.

(** In binary64: the y-coordinates of gauge [i] and of gauge
    [N - 1 - i] add up to zero within the tolerance. *)
Definition symmetric_binary64 (N : Z) : bool :=
  match gauges_y_binary64 N with
  | Some ys =>
      forallb (fun p => Qle_bool (Qabs (B64.to_Q p.1 + B64.to_Q p.2))
                          gauge_tolerance)
        (zip ys (reverse ys))
  | None => false
  end.

(** In binary64, at the cadence of the file: the first term of line 116
    for [h] hours is [4 * h], and [tfinal] is computed. *)
Definition hours_frames_binary64 (h : Z) : bool :=
  match (let* q := py_div (F:=spec_float) (Int h) AsWritten.step in py_int q),
        py_mul (F:=spec_float) (Int h) (py_sq (lit 60 0)) with
  | inr a, inr _ => a =? 4 * h
  | _, _ => false
  end.

(** In binary64, at the cadence of the file: the second term of line
    116 for a ramp-up time of [m] minutes is [m / 15] rounded up. *)
Definition ramp_frames_binary64 (m : Z) : bool :=
  match (let* d := py_mul (F:=spec_float) AsWritten.step (py_sq (Int 60)) in
         let* r := py_div (Int (60 * m)) d in
         let* c := py_ceil r in
         py_int c) with
  | inr b => b =? (m + 14) / 15
  | inl _ => false
  end.

(** Attribute lookup through the assignments. *)

Ltac lookup_attr :=
  repeat (rewrite lookup_insert_ne by done);
  first [ rewrite lookup_insert_eq | rewrite lookup_empty ].

(** [inr] is injective. *)
Definition result_inr_inj {A} (a b : A) (Heq : @inr exn A a = inr b) : a = b :=
  match Heq in _ = x return match x with inr b' => a = b' | inl _ => True end with
  | eq_refl => eq_refl
  end.

(** Inversion of a chain of binds that has returned. *)
Ltac bind_inversion H :=
  repeat match type of H with
  | bind ?m _ = inr _ =>
      let E := fresh "E" in
      destruct m eqn:E; cbn [bind] in H; [discriminate H |]
  end.

(** From a run that has returned: the package was accepted, [setgeo]
    has returned, and the block of the output times has returned. *)
Ltac setrun_inversion H :=
  unfold setrun in H;
  match type of H with
  | context [String.eqb ?a ?b] =>
      let Hpkg := fresh "Hpkg" in
      destruct (String.eqb_spec a b) as [Hpkg | Hpkg]
  end;
  cbn [assert bind ret raise] in H; [| discriminate H];
  match type of H with
  | bind ?m _ = _ =>
      let rg := fresh "rg" in
      let Hgeo := fresh "Hgeo" in
      destruct m as [? | rg] eqn:Hgeo; cbn [bind] in H; [discriminate H |]
  end;
  match type of H with
  | bind ?blk _ = _ =>
      let c := fresh "c" in
      let Hblk := fresh "Hblk" in
      destruct blk as [? | c] eqn:Hblk; cbn [bind ret] in H; [discriminate H |];
      apply result_inr_inj in H; subst;
      repeat match type of Hblk with
      | (if ?b then _ else _) = _ =>
          let Eos := fresh "Eos" in destruct b eqn:Eos
      end;
      bind_inversion Hblk;
      cbn [ret] in Hblk; apply result_inr_inj in Hblk; subst
  end.

(** * Properties *)

(** ** The error monad and the loop *)

Lemma for_each_append {A B} (f : A -> B) (body : A -> list B -> result (list B))
    (l : list A) (s : list B) :
  (forall a s', a ∈ l -> body a s' = inr (s' ++ [f a])) ->
  for_each l body s = inr (s ++ (f <$> l)).
Proof.
  revert s. induction l as [| a l IH]; intros s Hbody; simpl.
  - by rewrite app_nil_r.
  - rewrite Hbody by apply list_elem_of_here. simpl.
    rewrite IH.
    + by rewrite <- app_assoc.
    + intros a' s' Ha'. apply Hbody. by apply list_elem_of_further.
Qed.

Lemma elem_of_xrange (a b i : Z) : i ∈ xrange a b <-> a <= i < b.
Proof. unfold xrange. rewrite elem_of_seqZ. lia. Qed.

Lemma length_xrange (a b : Z) : a <= b -> Z.of_nat (length (xrange a b)) = b - a.
Proof. intros Hab. unfold xrange. rewrite length_seqZ. lia. Qed.

Lemma lookup_xrange (b : Z) (i : nat) :
  Z.of_nat i < b -> xrange 0 b !! i = Some (Z.of_nat i).
Proof.
  intros Hi. unfold xrange. rewrite lookup_seqZ_lt by lia. f_equal; lia.
Qed.

(** ** Arithmetic *)

(** Python 2 division: floor on two ints, float division as soon as one
    operand is a float. *)
Example py_div_python2 :
  py_div (F:=spec_float) (Int 7) (Int 2) = inr (Int 3) /\
  py_div (F:=spec_float) (Int (-7)) (Int 2) = inr (Int (-4)) /\
  py_div (F:=spec_float) (Int 7) (lit 2 0) = inr (lit 35 (-1)) /\
  py_div (F:=spec_float) (Int 7) (lit 0 0) = inl ZeroDivisionError.
Proof. repeat split; vm_compute; reflexivity. Qed.

(** [np.ceil] and [int] in binary64. *)
Example ceil_int_binary64 :
  B64.ceil (B64.of_decimal 4805 (-2)) = B64.of_Z 49 /\
  B64.ceil (B64.of_decimal 48 0) = B64.of_Z 48 /\
  B64.ceil (SFopp (B64.of_decimal 5 (-1))) = S754_zero true /\
  B64.to_int (B64.of_decimal 4805 (-2)) = inr 48 /\
  B64.to_int (SFopp (B64.of_decimal 4805 (-2))) = inr (-48) /\
  B64.to_int (S754_infinity false) = inl OverflowError.
Proof. repeat split; vm_compute; reflexivity. Qed.

(** *** Exact rationals *)

Lemma to_float_Q (x : num Q) : to_float x = inr (Qval x).
Proof. by destruct x. Qed.

Lemma Qfdiv_nonzero (x y : Q) : ~ (y == 0)%Q -> Qfdiv x y = inr (x / y)%Q.
Proof.
  intros Hy. unfold Qfdiv.
  destruct (Qeq_bool y 0) eqn:E; [| done].
  apply Qeq_bool_eq in E. contradiction.
Qed.

Lemma py_div_float_Q (x : num Q) (s : Q) :
  ~ (s == 0)%Q -> py_div x (Float s) = inr (Float (Qval x / s)%Q).
Proof.
  intros Hs. destruct x; simpl; by rewrite Qfdiv_nonzero.
Qed.

Lemma py_mul_float_Q (x : num Q) (f : Q) :
  py_mul x (Float f) = inr (Float (Qval x * f)%Q).
Proof. by destruct x. Qed.

Lemma Qtrunc_nonneg (x : Q) : (0 <= x)%Q -> Qtrunc x = Qfloor x.
Proof.
  destruct x as [n d]. unfold Qle, Qtrunc, Qfloor. simpl. intros Hn.
  apply Z.quot_div_nonneg; lia.
Qed.

Lemma Qtrunc_neg (x : Q) : (x <= 0)%Q -> Qtrunc x = Qceiling x.
Proof.
  destruct x as [n d]. unfold Qle, Qtrunc, Qceiling, Qfloor. simpl. intros Hn.
  rewrite <- (Z.opp_involutive n) at 1.
  rewrite Z.quot_opp_l by lia.
  f_equal. apply Z.quot_div_nonneg; lia.
Qed.

Lemma Qtrunc_inject_Z (z : Z) : Qtrunc (inject_Z z) = z.
Proof. unfold Qtrunc. simpl. apply Z.quot_1_r. Qed.

Lemma Qtrunc_le (x y : Q) : (x <= y)%Q -> Qtrunc x <= Qtrunc y.
Proof.
  intros Hxy.
  destruct (Qlt_le_dec x 0) as [Hx | Hx], (Qlt_le_dec y 0) as [Hy | Hy].
  - rewrite !Qtrunc_neg by by apply Qlt_le_weak.
    by apply Qceiling_resp_le.
  - rewrite (Qtrunc_neg x) by by apply Qlt_le_weak.
    rewrite (Qtrunc_nonneg y) by done.
    transitivity 0.
    + rewrite <- (Qceiling_Z 0). apply Qceiling_resp_le. by apply Qlt_le_weak.
    + rewrite <- (Qfloor_Z 0). by apply Qfloor_resp_le.
  - exfalso. apply (Qlt_irrefl 0).
    eapply Qle_lt_trans; [exact Hx |]. eapply Qle_lt_trans; [exact Hxy | exact Hy].
  - rewrite !Qtrunc_nonneg by done. by apply Qfloor_resp_le.
Qed.

(** ** Gauge placement *)

Lemma inject_Z_nonzero (z : Z) : z <> 0 -> ~ (inject_Z z == 0)%Q.
Proof. unfold Qeq. simpl. lia. Qed.

Lemma gauge_y_Q (N i : Z) :
  N + 1 <> 0 -> gauge_y N i = inr (Float (gauge_pos N i)).
Proof.
  intros HN. unfold gauge_y.
  cbn [py_add py_div py_mul py_neg lit to_float bind ret fdiv float_of_int
       fadd fmul fneg float_lit Q_float].
  rewrite Qfdiv_nonzero by by apply inject_Z_nonzero.
  reflexivity.
Qed.

Lemma place_gauge_Q (N i : Z) (gauges : list (value Q)) :
  N + 1 <> 0 ->
  place_gauge N i gauges = inr (gauges ++ [gauge_row i (gauge_pos N i)]).
Proof.
  intros HN. unfold place_gauge. by rewrite gauge_y_Q.
Qed.

Lemma gauges_loop_Q (N : Z) :
  for_each (xrange 0 N) (place_gauge N) [] =
  inr ((fun i => gauge_row i (gauge_pos N i)) <$> xrange 0 N).
Proof.
  rewrite (for_each_append (fun i => gauge_row i (gauge_pos N i))); [done |].
  intros i s Hi. apply elem_of_xrange in Hi. apply place_gauge_Q. lia.
Qed.

(** In exact arithmetic [setgeo] returns, whatever the number of gauges. *)
Lemma setgeo_Q (N : Z) (r : ClawRunData Q) (g0 : obj Q) :
  geodata r = Some g0 ->
  exists g, setgeo N r = inr (with_geodata r g) /\
    g !! "gauges" =
      Some (VList ((fun i => gauge_row i (gauge_pos N i)) <$> xrange 0 N)).
Proof.
  intros Hg. unfold setgeo. rewrite Hg, gauges_loop_Q.
  cbn [bind ret]. eexists. split; [reflexivity |].
  lookup_attr. reflexivity.
Qed.

Lemma zip_with_fmap_same {A B C} (f : A -> B -> C) (g : A -> B) (l : list A) :
  zip_with f l (g <$> l) = (fun a => f a (g a)) <$> l.
Proof. induction l as [| a l IH]; simpl; [done | by f_equal]. Qed.

Lemma gauge_pos_formula (N i : Z) :
  0 < N + 1 ->
  (gauge_pos N i ==
   (y_max - y_min) / inject_Z (N + 1) * inject_Z (i + 1) + y_min)%Q.
Proof.
  intros HN. unfold gauge_pos, y_max, y_min.
  field. apply inject_Z_nonzero. lia.
Qed.

Lemma gauge_pos_inside (N i : Z) :
  0 <= i < N -> (y_min < gauge_pos N i)%Q /\ (gauge_pos N i < y_max)%Q.
Proof.
  intros Hi. unfold gauge_pos, y_min, y_max.
  destruct (N + 1) as [| p | p] eqn:Hp; try lia.
  unfold Qlt, Qdiv, Qmult, Qplus, Qinv, Qopp, inject_Z. simpl. lia.
Qed.

Lemma gauge_pos_lt (N i j : Z) :
  0 <= N -> i < j -> (gauge_pos N i < gauge_pos N j)%Q.
Proof.
  intros HN Hij. unfold gauge_pos.
  destruct (N + 1) as [| p | p] eqn:Hp; try lia.
  unfold Qlt, Qdiv, Qmult, Qplus, Qinv, Qopp, inject_Z. simpl. nia.
Qed.

Lemma gauge_pos_step (N i : Z) :
  0 < N + 1 ->
  (gauge_pos N (i + 1) - gauge_pos N i ==
   (y_max - y_min) / inject_Z (N + 1))%Q.
Proof.
  intros HN. unfold gauge_pos, y_max, y_min.
  rewrite (inject_Z_plus (i + 1) 1).
  field. apply inject_Z_nonzero. lia.
Qed.

Lemma lookup_gauge_pos (N : Z) (i : nat) (y : Q) :
  (gauge_pos N <$> xrange 0 N) !! i = Some y ->
  Z.of_nat i < N /\ y = gauge_pos N (Z.of_nat i).
Proof.
  intros Hy.
  assert (Z.of_nat i < N) as Hi.
  { apply lookup_lt_Some in Hy. rewrite length_fmap in Hy.
    destruct (Z_lt_le_dec N 0) as [Hneg | Hpos].
    - unfold xrange in Hy. rewrite length_seqZ in Hy. lia.
    - pose proof (length_xrange 0 N Hpos). lia. }
  split; [done |].
  rewrite list_lookup_fmap, lookup_xrange in Hy by done.
  simpl in Hy. congruence.
Qed.

(** In exact arithmetic, for N >= 1: N gauges, gauge i at
    y_i = (y_max - y_min) / (N+1) * (i+1) + y_min, strictly inside
    (y_min, y_max), strictly increasing and exactly
    (y_max - y_min) / (N+1) apart. *)
Lemma gauge_placement_exact (N : Z) (H1 : 1 <= N) :
  exists (r : ClawRunData Q) (g : obj Q) (ys : list Q),
    setgeo N (new_ClawRunData "geoclaw" 2) = inr r /\
    geodata r = Some g /\
    g !! "gauges" = Some (VList (zip_with gauge_row (xrange 0 N) ys)) /\
    Z.of_nat (length ys) = N /\
    (forall (i : nat) (y : Q), ys !! i = Some y ->
       (y == (y_max - y_min) / inject_Z (N + 1) * inject_Z (Z.of_nat i + 1)
             + y_min)%Q /\
       (y_min < y)%Q /\ (y < y_max)%Q) /\
    (forall (i j : nat) (y y' : Q),
       (i < j)%nat -> ys !! i = Some y -> ys !! j = Some y' -> (y < y')%Q) /\
    (forall (i : nat) (y y' : Q),
       ys !! i = Some y -> ys !! S i = Some y' ->
       (y' - y == (y_max - y_min) / inject_Z (N + 1))%Q) /\
    (N = 21 -> forall y : Q, ys !! 0%nat = Some y -> (y == -250000)%Q).
Proof.
  destruct (setgeo_Q N (new_ClawRunData "geoclaw" 2) ∅ eq_refl) as (g & Hrun & Hg).
  exists (with_geodata (new_ClawRunData "geoclaw" 2) g), g,
    (gauge_pos N <$> xrange 0 N).
  split; [exact Hrun |]. split; [reflexivity |].
  split; [by rewrite zip_with_fmap_same |].
  split; [rewrite length_fmap, length_xrange by lia; lia |].
  split; [| split; [| split]].
  - intros i y Hy. apply lookup_gauge_pos in Hy as [Hi ->].
    split; [apply gauge_pos_formula; lia | apply gauge_pos_inside; lia].
  - intros i j y y' Hij Hy Hy'.
    apply lookup_gauge_pos in Hy as [_ ->].
    apply lookup_gauge_pos in Hy' as [_ ->].
    apply gauge_pos_lt; lia.
  - intros i y y' Hy Hy'.
    apply lookup_gauge_pos in Hy as [_ ->].
    apply lookup_gauge_pos in Hy' as [_ ->].
    replace (Z.of_nat (S i)) with (Z.of_nat i + 1) by lia.
    apply gauge_pos_step. lia.
  - intros -> y Hy. apply lookup_gauge_pos in Hy as [_ ->]. reflexivity.
Qed.

(** ** Output times *)

Lemma assert_accepted (claw_pkg msg : string) :
  lower claw_pkg = "geoclaw" ->
  assert (String.eqb (lower claw_pkg) "geoclaw") msg = inr tt.
Proof. intros ->. reflexivity. Qed.

Lemma Qmult_nonzero (x y : Q) : ~ (x == 0)%Q -> ~ (y == 0)%Q -> ~ (x * y == 0)%Q.
Proof.
  intros Hx Hy Hxy. apply Qmult_integral in Hxy. tauto.
Qed.

(** Style 1 in exact arithmetic: [setrun] returns as soon as the cadence
    is not zero. *)
Lemma setrun_style1_Q (RAMP nh : num Q) (step : Q) (N : Z) (tout : list (num Q))
    (claw_pkg : string) :
  lower claw_pkg = "geoclaw" ->
  ~ (step == 0)%Q ->
  exists r : ClawRunData Q,
    setrun RAMP N 1 nh (Float step) tout claw_pkg = inr r /\
    clawdata r !! "t0" = Some (VNum (py_neg RAMP)) /\
    clawdata r !! "nout" =
      Some (VNum (Int (Qtrunc (Qval nh / step)
                       + Qceiling (Qval RAMP / (step * 3600))))) /\
    clawdata r !! "tfinal" = Some (VNum (Float (Qval nh * 3600)%Q)).
Proof.
  intros Hpkg Hstep. unfold setrun.
  rewrite assert_accepted by done.
  destruct (setgeo_Q N (new_ClawRunData claw_pkg 2) ∅ eq_refl) as (g & -> & _).
  cbn [bind ret].
  change (1 =? 1) with true. cbv iota.
  rewrite py_div_float_Q by done.
  cbn [bind ret py_int py_mul py_sq py_ceil to_float int_of_float float_of_int
       fmul np_ceil Q_float].
  rewrite py_div_float_Q by (apply Qmult_nonzero; [done | by apply inject_Z_nonzero]).
  cbn [bind ret py_int py_mul py_sq py_ceil to_float int_of_float float_of_int
       fmul np_ceil Q_float lit float_lit].
  rewrite Qtrunc_inject_Z, py_mul_float_Q.
  cbn [bind ret].
  eexists. split; [reflexivity |].
  cbn [clawdata with_clawdata].
  split; [by lookup_attr |]. split; [by lookup_attr |].
  lookup_attr. reflexivity.
Qed.

Lemma Qdiv_le_compat (x y c : Q) : (0 < c)%Q -> (x <= y)%Q -> (x / c <= y / c)%Q.
Proof.
  intros Hc Hxy. unfold Qdiv. apply Qmult_le_compat_r; [done |].
  apply Qlt_le_weak. by apply Qinv_lt_0_compat.
Qed.

Lemma Qlt_nonzero (c : Q) : (0 < c)%Q -> ~ (c == 0)%Q.
Proof. intros Hc Hz. rewrite Hz in Hc. by apply Qlt_irrefl in Hc. Qed.

(** In exact arithmetic and for a float cadence, style 1 has [nout] =
    floor(num_hours / step) + ceil(RAMP_UP_TIME / (step * 3600)) and
    [tfinal] = num_hours * 3600. *)
Lemma style1_frame_count_exact (RAMP nh : num Q) (step : Q) (N : Z)
    (tout : list (num Q)) :
  (0 < Qval nh)%Q -> (0 < step)%Q -> (0 <= Qval RAMP)%Q ->
  exists (r : ClawRunData Q) (tf : Q),
    setrun RAMP N 1 nh (Float step) tout "geoclaw" = inr r /\
    clawdata r !! "nout" =
      Some (VNum (Int (Qfloor (Qval nh / step)
                       + Qceiling (Qval RAMP / (step * 3600))))) /\
    clawdata r !! "tfinal" = Some (VNum (Float tf)) /\
    (tf == Qval nh * 3600)%Q.
Proof.
  intros Hnh Hstep _.
  destruct (setrun_style1_Q RAMP nh step N tout "geoclaw" eq_refl
              (Qlt_nonzero step Hstep)) as (r & Hrun & _ & Hnout & Htf).
  exists r, (Qval nh * 3600)%Q.
  split; [exact Hrun |]. split; [| split; [exact Htf | reflexivity]].
  rewrite Hnout. rewrite Qtrunc_nonneg; [reflexivity |].
  apply Qle_shift_div_l; [done |].
  rewrite Qmult_0_l. by apply Qlt_le_weak.
Qed.

(** In exact arithmetic, for style 1 and a fixed positive float cadence,
    [nout] does not decrease when [num_hours] grows, nor when
    [RAMP_UP_TIME] grows. *)
Lemma frame_count_monotone_exact (RAMP RAMP' nh nh' : num Q) (step : Q) (N : Z)
    (tout : list (num Q)) :
  (0 < step)%Q ->
  (Qval nh <= Qval nh')%Q ->
  (Qval RAMP <= Qval RAMP')%Q ->
  exists (r r' : ClawRunData Q) (n n' : Z),
    setrun RAMP N 1 nh (Float step) tout "geoclaw" = inr r /\
    clawdata r !! "nout" = Some (VNum (Int n)) /\
    setrun RAMP' N 1 nh' (Float step) tout "geoclaw" = inr r' /\
    clawdata r' !! "nout" = Some (VNum (Int n')) /\
    n <= n'.
Proof.
  intros Hstep Hnh HRAMP.
  destruct (setrun_style1_Q RAMP nh step N tout "geoclaw" eq_refl
              (Qlt_nonzero step Hstep)) as (r & Hrun & _ & Hnout & _).
  destruct (setrun_style1_Q RAMP' nh' step N tout "geoclaw" eq_refl
              (Qlt_nonzero step Hstep)) as (r' & Hrun' & _ & Hnout' & _).
  do 4 eexists.
  split; [exact Hrun |]. split; [exact Hnout |].
  split; [exact Hrun' |]. split; [exact Hnout' |].
  apply Z.add_le_mono.
  - apply Qtrunc_le. by apply Qdiv_le_compat.
  - apply Qceiling_resp_le. apply Qdiv_le_compat; [| done].
    apply Qmult_lt_0_compat; [exact Hstep | reflexivity].
Qed.

(** ** The storm *)

(** [set_storm] returns, in every model of the floats. *)
Lemma set_storm_returns {F : Type} `{PyFloat F} (RAMP : num F)
    (wind R : list (num F)) (p : F) (np_cos np_sin : F -> F) :
  exists s : obj F,
    set_storm RAMP wind R p np_cos np_sin = inr s /\
    s !! "ramp_up_t" = Some (VNum RAMP) /\
    s !! "wind_refine" = Some (vnums wind) /\
    s !! "R_refine" = Some (vnums R) /\
    s !! "Pc" = Some (VNum (Float (fmul p (float_lit 1 2)))).
Proof.
  unfold set_storm. cbn [py_mul lit to_float bind ret].
  eexists. split; [reflexivity |].
  repeat split; by lookup_attr.
Qed.

(** C7: the central pressure is stored in pascals, the value in
    millibars times 100; 950.0 millibars are stored as 95000.0, in
    binary64 as in exact arithmetic. *)
Theorem C7_millibars_to_pascals :
  (forall (RAMP : num Q) (wind R : list (num Q)) (p : Q) (np_cos np_sin : Q -> Q),
     exists (s : obj Q) (pc : Q),
       set_storm RAMP wind R p np_cos np_sin = inr s /\
       s !! "Pc" = Some (VNum (Float pc)) /\ (pc == p * 100)%Q) /\
  (forall np_cos np_sin : spec_float -> spec_float,
     exists s : obj spec_float,
       AsWritten.set_storm np_cos np_sin = inr s /\
       s !! "Pc" = Some (VNum (Float (B64.of_Z 95000)))) /\
  (forall np_cos np_sin : Q -> Q,
     exists s : obj Q,
       AsWritten.set_storm np_cos np_sin = inr s /\
       s !! "Pc" = Some (VNum (Float 95000%Q))).
Proof.
  split; [| split].
  - intros RAMP wind R p np_cos np_sin.
    destruct (set_storm_returns RAMP wind R p np_cos np_sin)
      as (s & Hrun & _ & _ & _ & HPc).
    exists s, (p * 100)%Q. split; [exact Hrun |]. split; [exact HPc | reflexivity].
  - intros np_cos np_sin.
    destruct (set_storm_returns (F:=spec_float) AsWritten.RAMP_UP_TIME
                AsWritten.wind_refine AsWritten.R_refine AsWritten.Pc_mbar
                np_cos np_sin) as (s & Hrun & _ & _ & _ & HPc).
    exists s. split; [exact Hrun | exact HPc].
  - intros np_cos np_sin.
    destruct (set_storm_returns (F:=Q) AsWritten.RAMP_UP_TIME
                AsWritten.wind_refine AsWritten.R_refine AsWritten.Pc_mbar
                np_cos np_sin) as (s & Hrun & _ & _ & _ & HPc).
    exists s. split; [exact Hrun | exact HPc].
Qed.

(** C8 as stated fails: with one wind threshold and no radius threshold
    [set_storm] returns its data. *)
Lemma C8_no_length_check :
  length [lit (F:=spec_float) 20 0] <> length (@nil (num spec_float)) /\
  forall np_cos np_sin : spec_float -> spec_float,
    exists s : obj spec_float,
      set_storm AsWritten.RAMP_UP_TIME [lit 20 0] [] AsWritten.Pc_mbar
        np_cos np_sin = inr s.
Proof.
  split; [discriminate |].
  intros np_cos np_sin.
  destruct (set_storm_returns (F:=spec_float) AsWritten.RAMP_UP_TIME
              [lit 20 0] [] AsWritten.Pc_mbar np_cos np_sin) as (s & Hrun & _).
  by exists s.
Qed.

(** C8, amended: [set_storm] stores the two lists of thresholds as they
    are given and checks nothing about their lengths, it returns for
    every pair of lists; the lists of the file have the same length, 3. *)
Theorem C8_thresholds_stored {F : Type} `{PyFloat F} (RAMP : num F)
    (wind R : list (num F)) (p : F) (np_cos np_sin : F -> F) :
  (exists s : obj F,
     set_storm RAMP wind R p np_cos np_sin = inr s /\
     s !! "wind_refine" = Some (vnums wind) /\
     s !! "R_refine" = Some (vnums R)) /\
  length (AsWritten.wind_refine (F:=F)) = 3%nat /\
  length (AsWritten.R_refine (F:=F)) = 3%nat.
Proof.
  split; [| by split].
  destruct (set_storm_returns RAMP wind R p np_cos np_sin)
    as (s & Hrun & _ & Hw & HR & _).
  by exists s.
Qed.

(** ** The schedule of the file *)

Lemma attr_returns {F} (k : string) (x : result (ClawRunData F)) (v : value F) :
  attr k x = Some v -> exists r, x = inr r.
Proof. destruct x as [e | r]; [discriminate | eauto]. Qed.

(** C2 as stated fails: with 40 hours, a cadence of 0.25 and a ramp-up
    of 43200 seconds the frame count is not 161. *)
Lemma C2_frame_count_not_161 :
  ~ (exists r : ClawRunData spec_float,
       AsWritten.setrun "geoclaw" = inr r /\
       clawdata r !! "nout" = Some (VNum (Int 161)) /\
       clawdata r !! "tfinal" = Some (VNum (Float (B64.of_Z 144000)))).
Proof.
  intros (r & Hrun & Hnout & _).
  assert (attr "nout" (AsWritten.setrun (F:=spec_float) "geoclaw")
          = Some (VNum (Int 208))) as Hc by (vm_compute; reflexivity).
  rewrite Hrun in Hc. unfold attr in Hc. congruence.
Qed.

(** C2, amended: with 40 hours, a cadence of 0.25 and a ramp-up of 43200
    seconds, [nout] is 160 + 48 = 208 and [tfinal] is 144000, in
    binary64 as in exact arithmetic. *)
Theorem C2_schedule_of_the_file :
  (exists r : ClawRunData spec_float,
     AsWritten.setrun "geoclaw" = inr r /\
     clawdata r !! "nout" = Some (VNum (Int (160 + 48))) /\
     clawdata r !! "tfinal" = Some (VNum (Float (B64.of_Z 144000)))) /\
  (exists r : ClawRunData Q,
     AsWritten.setrun "geoclaw" = inr r /\
     clawdata r !! "nout" = Some (VNum (Int (160 + 48))) /\
     clawdata r !! "tfinal" = Some (VNum (Float 144000%Q))).
Proof.
  split.
  - assert (attr "nout" (AsWritten.setrun (F:=spec_float) "geoclaw")
            = Some (VNum (Int 208))) as Hn by (vm_compute; reflexivity).
    assert (attr "tfinal" (AsWritten.setrun (F:=spec_float) "geoclaw")
            = Some (VNum (Float (B64.of_Z 144000)))) as Ht
      by (vm_compute; reflexivity).
    destruct (attr_returns _ _ _ Hn) as [r Hr].
    rewrite Hr in Hn, Ht. exists r.
    split; [exact Hr |]. split; [exact Hn | exact Ht].
  - assert (attr "nout" (AsWritten.setrun (F:=Q) "geoclaw")
            = Some (VNum (Int 208))) as Hn by (vm_compute; reflexivity).
    assert (attr "tfinal" (AsWritten.setrun (F:=Q) "geoclaw")
            = Some (VNum (Float 144000%Q))) as Ht by (vm_compute; reflexivity).
    destruct (attr_returns _ _ _ Hn) as [r Hr].
    rewrite Hr in Hn, Ht. exists r.
    split; [exact Hr |]. split; [exact Hn | exact Ht].
Qed.

(** The two terms of the count, in binary64: 40 / 0.25 is 160.0 and
    43200 / (0.25 * 3600) is 48.0, both exact. *)
Example frame_count_terms_binary64 :
  (let* q := py_div (F:=spec_float) AsWritten.num_hours AsWritten.step in
   py_int q) = inr 160 /\
  (let* d := py_mul (F:=spec_float) AsWritten.step (py_sq (Int 60)) in
   let* r := py_div AsWritten.RAMP_UP_TIME d in
   let* c := py_ceil r in
   py_int c) = inr 48.
Proof. split; vm_compute; reflexivity. Qed.

(** In binary64 the file places 21 gauges, gauge 0 at y = -250000.0. *)
Example gauge_0_binary64 :
  match geo_attr "gauges" (AsWritten.setgeo (new_ClawRunData "geoclaw" 2)) with
  | Some (VList rows) =>
      length rows = 21%nat /\
      rows !! 0%nat =
        Some (VList [VNum (Int 0); VNum (Float (B64.of_Z 455000));
                     VNum (Float (B64.of_Z (-250000)));
                     VNum (Float (S754_zero false));
                     VNum (Float (B64.of_Z (10 ^ 10)))])
  | _ => False
  end.
Proof. vm_compute. split; reflexivity. Qed.

(** ** The ramp-up *)

(** In binary64 the file has t0 = -43200 and ramp_up_t = 43200. *)
Example ramp_up_binary64 (np_cos np_sin : spec_float -> spec_float) :
  attr "t0" (AsWritten.setrun (F:=spec_float) "geoclaw")
    = Some (VNum (Int (-43200))) /\
  exists s : obj spec_float,
    AsWritten.set_storm np_cos np_sin = inr s /\
    s !! "ramp_up_t" = Some (VNum (Int 43200)).
Proof.
  split; [vm_compute; reflexivity |].
  destruct (set_storm_returns (F:=spec_float) AsWritten.RAMP_UP_TIME
              AsWritten.wind_refine AsWritten.R_refine AsWritten.Pc_mbar
              np_cos np_sin) as (s & Hstorm & Hramp & _).
  by exists s.
Qed.

(** ** Explicit output times *)

(** Style 2 in exact arithmetic: [setrun] returns for every list. *)
Lemma setrun_style2_Q (RAMP nh step : num Q) (N : Z) (tout : list (num Q))
    (claw_pkg : string) :
  lower claw_pkg = "geoclaw" ->
  exists r : ClawRunData Q,
    setrun RAMP N 2 nh step tout claw_pkg = inr r /\
    clawdata r !! "tout" = Some (vnums tout) /\
    clawdata r !! "nout" = Some (VNum (Int (Z.of_nat (length tout)))).
Proof.
  intros Hpkg. unfold setrun.
  rewrite assert_accepted by done.
  destruct (setgeo_Q N (new_ClawRunData claw_pkg 2) ∅ eq_refl) as (g & -> & _).
  cbn [bind ret].
  change (2 =? 1) with false. change (2 =? 2) with true. cbv iota.
  cbn [bind ret].
  eexists. split; [reflexivity |].
  cbn [clawdata with_clawdata].
  split; by lookup_attr.
Qed.

(** C5 as stated fails: for the descending list [3.0, 1.0] of output
    times [setrun] returns a configuration, of two frames. *)
Lemma C5_descending_times_accepted :
  ~ Sorted Qlt (Qval <$> [Float 3%Q; Float 1%Q]) /\
  exists r : ClawRunData Q,
    setrun AsWritten.RAMP_UP_TIME AsWritten.N_gauges 2 AsWritten.num_hours
      AsWritten.step [Float 3%Q; Float 1%Q] "geoclaw" = inr r /\
    clawdata r !! "nout" = Some (VNum (Int 2)).
Proof.
  split.
  - intros Hs. inversion Hs as [| x l _ Hhd]; subst.
    inversion Hhd as [| y l' Hlt]; subst. discriminate Hlt.
  - destruct (setrun_style2_Q AsWritten.RAMP_UP_TIME AsWritten.num_hours
                AsWritten.step AsWritten.N_gauges [Float 3%Q; Float 1%Q]
                "geoclaw" eq_refl) as (r & Hrun & _ & Hnout).
    exists r. split; [exact Hrun | exact Hnout].
Qed.

(** C5, amended: for output style 2, [nout] is the length of the list of
    output times, which is stored as it is given; [setrun] checks
    nothing about its order and returns for every list. *)
Theorem C5_style2_frame_count (RAMP nh step : num Q) (N : Z)
    (tout : list (num Q)) :
  exists r : ClawRunData Q,
    setrun RAMP N 2 nh step tout "geoclaw" = inr r /\
    clawdata r !! "tout" = Some (vnums tout) /\
    clawdata r !! "nout" = Some (VNum (Int (Z.of_nat (length tout)))).
Proof. by apply setrun_style2_Q. Qed.

(** ** The package *)

Lemma setrun_rejected {F : Type} `{PyFloat F} (RAMP nh step : num F)
    (N outstyle : Z) (tout : list (num F)) (claw_pkg : string) :
  lower claw_pkg <> "geoclaw" ->
  setrun RAMP N outstyle nh step tout claw_pkg =
  inl (AssertionError "Expected claw_pkg = 'geoclaw'").
Proof.
  intros Hpkg. unfold setrun.
  destruct (String.eqb_spec (lower claw_pkg) "geoclaw") as [Heq | _]; [done |].
  reflexivity.
Qed.

Lemma setrun_any_case {F : Type} `{PyFloat F} (RAMP nh step : num F)
    (N outstyle : Z) (tout : list (num F)) (claw_pkg : string) :
  lower claw_pkg = "geoclaw" ->
  setrun RAMP N outstyle nh step tout claw_pkg =
  match setrun RAMP N outstyle nh step tout "geoclaw" with
  | inl e => inl e
  | inr r => inr (with_pkg claw_pkg r)
  end.
Proof.
  intros Hpkg. unfold setrun.
  rewrite !assert_accepted by done.
  cbn [bind]. unfold setgeo. cbn [geodata new_ClawRunData].
  destruct (for_each (xrange 0 N) (place_gauge N) []) as [e | gauges];
    [reflexivity |].
  cbn [bind ret clawdata with_geodata new_ClawRunData].
  match goal with
  | |- bind ?blk _ = _ => destruct blk as [e | clawdata1]; reflexivity
  end.
Qed.

(** The file as it is written returns, in binary64. *)
Lemma as_written_returns :
  exists r : ClawRunData spec_float, AsWritten.setrun "geoclaw" = inr r.
Proof.
  apply (attr_returns "nout" _ (VNum (Int 208))). vm_compute. reflexivity.
Qed.

(** C6 as stated fails: 'GeoClaw' is not the identifier 'geoclaw', and
    [setrun] returns a configuration for it. *)
Lemma C6_other_spelling_accepted :
  "GeoClaw" <> "geoclaw" /\
  exists r : ClawRunData spec_float, AsWritten.setrun "GeoClaw" = inr r.
Proof.
  split; [discriminate |].
  destruct as_written_returns as [r0 Hr0].
  exists (with_pkg "GeoClaw" r0).
  unfold AsWritten.setrun in *.
  rewrite setrun_any_case by reflexivity. by rewrite Hr0.
Qed.

(** C6, amended: for every package name whose lowercase form is not
    'geoclaw', [setrun] raises the AssertionError of its first
    statement, whatever the constants of the file are (also where the
    derivation itself would raise), and returns no run data. *)
Theorem C6_other_package_rejected {F : Type} `{PyFloat F} (RAMP nh step : num F)
    (N outstyle : Z) (tout : list (num F)) (claw_pkg : string) :
  lower claw_pkg <> "geoclaw" ->
  setrun RAMP N outstyle nh step tout claw_pkg =
    inl (AssertionError "Expected claw_pkg = 'geoclaw'") /\
  forall r : ClawRunData F,
    setrun RAMP N outstyle nh step tout claw_pkg <> inr r.
Proof.
  intros Hpkg. rewrite setrun_rejected by done. split; [reflexivity | discriminate].
Qed.

(** A cadence of zero makes the derivation raise ZeroDivisionError for
    'geoclaw'; for 'amrclaw' the assertion fails before that. *)
Lemma C6_other_package_rejected_witness :
  lower "amrclaw" <> "geoclaw" /\
  setrun (F:=spec_float) AsWritten.RAMP_UP_TIME AsWritten.N_gauges 1
    AsWritten.num_hours (Float (S754_zero false)) AsWritten.tout "geoclaw"
    = inl ZeroDivisionError /\
  setrun (F:=spec_float) AsWritten.RAMP_UP_TIME AsWritten.N_gauges 1
    AsWritten.num_hours (Float (S754_zero false)) AsWritten.tout "amrclaw"
    = inl (AssertionError "Expected claw_pkg = 'geoclaw'").
Proof.
  split; [discriminate |].
  split; [vm_compute; reflexivity |].
  apply (C6_other_package_rejected (F:=spec_float)). discriminate.
Defined.

(** C10: the package name is compared in lowercase: every spelling of
    'geoclaw' in upper and lower case letters is accepted, and the
    parameter sets [clawdata] and [geodata] of the run are those of the
    run for 'geoclaw'. *)
Theorem C10_package_name_case (claw_pkg : string) :
  lower claw_pkg = "geoclaw" ->
  exists r r0 : ClawRunData spec_float,
    AsWritten.setrun claw_pkg = inr r /\
    AsWritten.setrun "geoclaw" = inr r0 /\
    clawdata r = clawdata r0 /\
    geodata r = geodata r0.
Proof.
  intros Hpkg. destruct as_written_returns as [r0 Hr0].
  exists (with_pkg claw_pkg r0), r0.
  split; [| split; [exact Hr0 | split; reflexivity]].
  unfold AsWritten.setrun in *.
  rewrite setrun_any_case by done. by rewrite Hr0.
Qed.

Lemma C10_package_name_case_witness :
  lower "GeoClaw" = "geoclaw" /\ lower "GEOCLAW" = "geoclaw" /\
  exists r r0 : ClawRunData spec_float,
    AsWritten.setrun "GEOCLAW" = inr r /\
    AsWritten.setrun "geoclaw" = inr r0 /\
    clawdata r = clawdata r0 /\
    geodata r = geodata r0.
Proof.
  split; [reflexivity |]. split; [reflexivity |].
  apply (C10_package_name_case "GEOCLAW"). reflexivity.
Defined.
(** * Further properties *)

(** ** setgeo *)

Lemma xrange_empty (a b : Z) : b <= a -> xrange a b = [].
Proof.
  intros Hba. unfold xrange, seqZ.
  replace (Z.to_nat (b - a)) with 0%nat by lia. reflexivity.
Qed.

(** What [setgeo] keeps and what it sets. *)
Lemma setgeo_inv {F : Type} `{PyFloat F} (N : Z) (r r' : ClawRunData F) :
  setgeo N r = inr r' ->
  pkg r' = pkg r /\ ndim r' = ndim r /\ clawdata r' = clawdata r /\
  exists g g' : obj F,
    geodata r = Some g /\ geodata r' = Some g' /\
    (forall k, k ∈ setgeo_attributes -> is_Some (g' !! k)) /\
    (forall k, k ∉ setgeo_attributes -> g' !! k = g !! k).
Proof.
  unfold setgeo. destruct (geodata r) as [g |] eqn:Hg; [| discriminate].
  destruct (for_each (xrange 0 N) (place_gauge N) []) as [e | gauges];
    [discriminate |].
  cbn [bind ret]. intros Hr'. apply result_inr_inj in Hr'. subst r'.
  split; [reflexivity |]. split; [reflexivity |]. split; [reflexivity |].
  exists g. eexists. split; [reflexivity |]. split; [reflexivity |].
  split.
  - intros k Hk. unfold setgeo_attributes in Hk.
    repeat (apply elem_of_cons in Hk as [-> | Hk]; [lookup_attr; by eexists |]).
    by apply elem_of_nil in Hk.
  - intros k Hk. unfold setgeo_attributes in Hk.
    rewrite !not_elem_of_cons in Hk.
    repeat (rewrite lookup_insert_ne by (intros <-; tauto)).
    reflexivity.
Qed.

(** [setgeo] changes nothing but [geodata]: the package, the dimension
    and [clawdata] are kept, its 32 attributes are set, and every other
    attribute of [geodata] keeps its value. *)
Theorem setgeo_frame {F : Type} `{PyFloat F} (N : Z) (r r' : ClawRunData F) :
  setgeo N r = inr r' ->
  pkg r' = pkg r /\ ndim r' = ndim r /\ clawdata r' = clawdata r /\
  exists g g' : obj F,
    geodata r = Some g /\ geodata r' = Some g' /\
    (forall k, k ∈ setgeo_attributes -> is_Some (g' !! k)) /\
    (forall k, k ∉ setgeo_attributes -> g' !! k = g !! k).
Proof. exact (@setgeo_inv _ _ N r r'). Qed.

Lemma setgeo_frame_witness :
  exists r' : ClawRunData spec_float,
    setgeo 2 (with_geodata (new_ClawRunData "geoclaw" 2)
                (<["sea_level" := vlit 0 0]> ∅)) = inr r' /\
    exists g' : obj spec_float,
      geodata r' = Some g' /\ g' !! "sea_level" = Some (vlit 0 0).
Proof.
  destruct (setgeo 2 (with_geodata (new_ClawRunData (F:=spec_float) "geoclaw" 2)
                        (<["sea_level" := vlit 0 0]> ∅))) as [e | r'] eqn:Hrun.
  - exfalso. vm_compute in Hrun. discriminate Hrun.
  - exists r'. split; [reflexivity |].
    destruct (setgeo_frame 2 _ r' Hrun) as (_ & _ & _ & g & g' & Hg & Hg' & _ & Hkeep).
    exists g'. split; [exact Hg' |].
    rewrite Hkeep.
    + injection Hg as <-. reflexivity.
    + vm_compute. intros Hin.
      repeat (apply elem_of_cons in Hin as [Heq | Hin]; [discriminate Heq |]).
      by apply elem_of_nil in Hin.
Defined.

(** Without gauges to place ([N_gauges] zero or negative) [setgeo]
    returns with an empty list of gauges, in every model of the floats:
    the loop has no iteration, so that also for [N_gauges] = -1 nothing
    is divided by [N_gauges + 1]. *)
Theorem setgeo_no_gauges {F : Type} `{PyFloat F} (N : Z) (r : ClawRunData F)
    (g : obj F) :
  N <= 0 -> geodata r = Some g ->
  exists (r' : ClawRunData F) (g' : obj F),
    setgeo N r = inr r' /\ geodata r' = Some g' /\
    g' !! "gauges" = Some (VList []).
Proof.
  intros HN Hg. unfold setgeo. rewrite Hg, xrange_empty by done.
  cbn [for_each bind ret].
  do 2 eexists. split; [reflexivity |]. split; [reflexivity |].
  by lookup_attr.
Qed.

Lemma setgeo_no_gauges_witness :
  -1 <= 0 /\
  exists (r' : ClawRunData spec_float) (g' : obj spec_float),
    setgeo (-1) (new_ClawRunData "geoclaw" 2) = inr r' /\
    geodata r' = Some g' /\
    g' !! "gauges" = Some (VList []).
Proof.
  split; [lia |].
  apply (setgeo_no_gauges (F:=spec_float) (-1) (new_ClawRunData "geoclaw" 2) ∅);
    [lia | reflexivity].
Defined.

(** ** setrun *)

(** The requirements that the comments of [setrun] state hold in every
    run data that it returns: [mthlim] has [mwaves] entries (line 191),
    [auxtype] has [maux] entries (line 244), and the three lists of
    refinement ratios have at least [|mxnest| - 1] entries (line 231). *)
Theorem setrun_lengths_agree {F : Type} `{PyFloat F} (RAMP nh step : num F)
    (N outstyle : Z) (tout : list (num F)) (claw_pkg : string)
    (r : ClawRunData F) :
  setrun RAMP N outstyle nh step tout claw_pkg = inr r ->
  exists (mwaves maux mxnest : Z) (mthlim auxtype inratx inraty inratt : value F),
    clawdata r !! "mwaves" = Some (vint mwaves) /\
    clawdata r !! "mthlim" = Some mthlim /\
    vlen mthlim = Some mwaves /\
    clawdata r !! "maux" = Some (vint maux) /\
    clawdata r !! "auxtype" = Some auxtype /\
    vlen auxtype = Some maux /\
    clawdata r !! "mxnest" = Some (vint mxnest) /\
    clawdata r !! "inratx" = Some inratx /\
    clawdata r !! "inraty" = Some inraty /\
    clawdata r !! "inratt" = Some inratt /\
    (exists nx ny nt : Z,
       vlen inratx = Some nx /\ vlen inraty = Some ny /\ vlen inratt = Some nt /\
       Z.abs mxnest - 1 <= nx /\ Z.abs mxnest - 1 <= ny /\
       Z.abs mxnest - 1 <= nt).
Proof.
  intros Hrun. setrun_inversion Hrun; cbn [clawdata with_clawdata];
    (exists 3, 9, (-5)); do 5 eexists;
    (split; [by lookup_attr |]); (split; [by lookup_attr |]);
    (split; [reflexivity |]);
    (split; [by lookup_attr |]); (split; [by lookup_attr |]);
    (split; [reflexivity |]);
    (split; [by lookup_attr |]); (split; [by lookup_attr |]);
    (split; [by lookup_attr |]); (split; [by lookup_attr |]);
    (exists 5, 5, 5); repeat split; lia.
Qed.

Lemma setrun_lengths_agree_witness :
  exists r : ClawRunData spec_float,
    AsWritten.setrun "geoclaw" = inr r /\
    exists mthlim auxtype : value spec_float,
      clawdata r !! "mthlim" = Some mthlim /\ vlen mthlim = Some 3 /\
      clawdata r !! "auxtype" = Some auxtype /\ vlen auxtype = Some 9.
Proof.
  destruct as_written_returns as [r Hr]. exists r. split; [exact Hr |].
  pose proof Hr as Hrun. unfold AsWritten.setrun in Hrun.
  destruct (setrun_lengths_agree _ _ _ _ _ _ _ _ Hrun)
    as (mwaves & maux & mxnest & mthlim & auxtype & inratx & inraty & inratt
        & Hmw & Hml & Hlen & Hma & Hat & Hlen' & _).
  assert (attr "mwaves" (AsWritten.setrun (F:=spec_float) "geoclaw")
          = Some (vint 3)) as Hw by (vm_compute; reflexivity).
  assert (attr "maux" (AsWritten.setrun (F:=spec_float) "geoclaw")
          = Some (vint 9)) as Ha by (vm_compute; reflexivity).
  rewrite Hr in Hw, Ha. unfold attr in Hw, Ha.
  rewrite Hmw in Hw. rewrite Hma in Ha.
  apply (inj Some) in Hw. apply (inj Some) in Ha.
  assert (mwaves = 3) as -> by (unfold vint in Hw; congruence).
  assert (maux = 9) as -> by (unfold vint in Ha; congruence).
  exists mthlim, auxtype. repeat split; assumption.
Defined.

(** What a run that has returned went through. *)
Lemma setrun_inv {F : Type} `{PyFloat F} (RAMP nh step : num F)
    (N outstyle : Z) (tout : list (num F)) (claw_pkg : string)
    (r : ClawRunData F) :
  setrun RAMP N outstyle nh step tout claw_pkg = inr r ->
  lower claw_pkg = "geoclaw" /\
  (exists rg : ClawRunData F,
     setgeo N (new_ClawRunData claw_pkg 2) = inr rg /\
     geodata r = geodata rg) /\
  pkg r = claw_pkg /\ ndim r = 2 /\
  clawdata r !! "ndim" = Some (vint 2) /\
  clawdata r !! "t0" = Some (VNum (py_neg RAMP)) /\
  clawdata r !! "outstyle" = Some (vint outstyle).
Proof.
  intros Hrun. setrun_inversion Hrun; cbn [clawdata with_clawdata];
    destruct (setgeo_inv _ _ _ Hgeo) as (Hp & Hn & _);
    (split; [assumption |]);
    (split; [eexists; split; [reflexivity | reflexivity] |]);
    (split; [exact Hp |]); (split; [exact Hn |]);
    (split; [by lookup_attr |]); (split; by lookup_attr).
Qed.

(** [setrun] extends what [setgeo] returns: when it returns, the package
    name was accepted, [setgeo] has returned on fresh run data of that
    package and dimension 2, [geodata] is as [setgeo] left it, the name
    is kept as it was given, and the initial time is the negated
    ramp-up time, in every model of the floats. *)
Theorem setrun_extends_setgeo {F : Type} `{PyFloat F} (RAMP nh step : num F)
    (N outstyle : Z) (tout : list (num F)) (claw_pkg : string)
    (r : ClawRunData F) :
  setrun RAMP N outstyle nh step tout claw_pkg = inr r ->
  lower claw_pkg = "geoclaw" /\
  (exists rg : ClawRunData F,
     setgeo N (new_ClawRunData claw_pkg 2) = inr rg /\
     geodata r = geodata rg) /\
  pkg r = claw_pkg /\ ndim r = 2 /\
  clawdata r !! "ndim" = Some (vint 2) /\
  clawdata r !! "t0" = Some (VNum (py_neg RAMP)) /\
  clawdata r !! "outstyle" = Some (vint outstyle).
Proof. exact (@setrun_inv _ _ RAMP nh step N outstyle tout claw_pkg r). Qed.

Lemma setrun_extends_setgeo_witness :
  exists r : ClawRunData spec_float,
    AsWritten.setrun "GeoClaw" = inr r /\
    pkg r = "GeoClaw" /\ ndim r = 2 /\
    clawdata r !! "t0" = Some (VNum (Int (-43200))).
Proof.
  destruct (AsWritten.setrun (F:=spec_float) "GeoClaw") as [e | r] eqn:Hrun.
  - exfalso.
    assert (attr "ndim" (AsWritten.setrun (F:=spec_float) "GeoClaw")
            = Some (vint 2)) as Hc by (vm_compute; reflexivity).
    rewrite Hrun in Hc. discriminate Hc.
  - exists r. split; [reflexivity |].
    unfold AsWritten.setrun in Hrun.
    destruct (setrun_extends_setgeo _ _ _ _ _ _ _ _ Hrun)
      as (_ & _ & Hp & Hn & _ & Ht0 & _).
    split; [exact Hp |]. split; [exact Hn | exact Ht0].
Defined.



(** ** The script *)

(** The script writes all or nothing: either [setrun] raises and nothing
    has been written, or the run data and then the storm data are
    written and the script ends well; the two written objects then agree
    on the ramp-up, t0 = -ramp_up_t, in every model of the floats. *)
Theorem main_all_or_nothing {F : Type} `{PyFloat F} (RAMP nh step : num F)
    (N outstyle : Z) (tout wind R : list (num F)) (Pc : F)
    (np_cos np_sin : F -> F) (argv : list string) :
  (exists e : exn, main RAMP N outstyle nh step tout wind R Pc np_cos np_sin argv = ([], inl e)) \/
  (exists (r : ClawRunData F) (s : obj F),
     main RAMP N outstyle nh step tout wind R Pc np_cos np_sin argv = ([WroteRunData r; WroteStorm s], inr tt) /\
     clawdata r !! "t0" = Some (VNum (py_neg RAMP)) /\
     s !! "ramp_up_t" = Some (VNum RAMP)).
Proof.
  destruct (set_storm_returns RAMP wind R Pc np_cos np_sin)
    as (s & Hstorm & Hramp & _).
  unfold main. rewrite Hstorm.
  match goal with
  | |- context [match ?x with inl _ => _ | inr _ => _ end] =>
      destruct x as [e | r] eqn:Hrun
  end.
  - left. by exists e.
  - right. exists r, s. split; [reflexivity |]. split; [| exact Hramp].
    destruct argv as [| a [| b [| c l]]];
      by destruct (setrun_inv _ _ _ _ _ _ _ _ Hrun)
        as (_ & _ & _ & _ & _ & Ht0 & _).
Qed.

(** Only an argument list of length 2 selects the package: without an
    argument, and with two arguments or more, the script runs for the
    default package 'geoclaw', whatever the arguments are. *)
Theorem main_default_package {F : Type} `{PyFloat F} (RAMP nh step : num F)
    (N outstyle : Z) (tout wind R : list (num F)) (Pc : F)
    (np_cos np_sin : F -> F)
    (argv : list string) (prog : string) :
  length argv <> 2%nat ->
  main RAMP N outstyle nh step tout wind R Pc np_cos np_sin argv = main RAMP N outstyle nh step tout wind R Pc np_cos np_sin
    [prog; "geoclaw"].
Proof.
  intros Hlen. destruct argv as [| a [| b [| c l]]]; try reflexivity.
  by destruct Hlen.
Qed.

(** For one argument whose lowercase form is not 'geoclaw' the script
    ends with the AssertionError and has written nothing. *)
Theorem main_rejected {F : Type} `{PyFloat F} (RAMP nh step : num F)
    (N outstyle : Z) (tout wind R : list (num F)) (Pc : F)
    (np_cos np_sin : F -> F)
    (prog claw_pkg : string) :
  lower claw_pkg <> "geoclaw" ->
  main RAMP N outstyle nh step tout wind R Pc np_cos np_sin
    [prog; claw_pkg] =
  ([], inl (AssertionError "Expected claw_pkg = 'geoclaw'")).
Proof.
  intros Hpkg. unfold main. by rewrite setrun_rejected.
Qed.

Lemma main_as_written (np_cos np_sin : spec_float -> spec_float) :
  exists (r : ClawRunData spec_float) (s : obj spec_float),
    AsWritten.main np_cos np_sin ["setrun.py"; "geoclaw"]
    = ([WroteRunData r; WroteStorm s], inr tt).
Proof.
  destruct as_written_returns as [r Hr].
  destruct (set_storm_returns (F:=spec_float) AsWritten.RAMP_UP_TIME
              AsWritten.wind_refine AsWritten.R_refine AsWritten.Pc_mbar
              np_cos np_sin) as (s & Hs & _).
  exists r, s. unfold AsWritten.main, main.
  unfold AsWritten.setrun in Hr. rewrite Hr, Hs. reflexivity.
Qed.

Lemma main_default_package_witness :
  length ["setrun.py"; "amrclaw"; "extra"] <> 2%nat /\
  forall np_cos np_sin : spec_float -> spec_float,
    exists (r : ClawRunData spec_float) (s : obj spec_float),
      AsWritten.main np_cos np_sin ["setrun.py"; "amrclaw"; "extra"]
      = ([WroteRunData r; WroteStorm s], inr tt).
Proof.
  split; [discriminate |].
  intros np_cos np_sin.
  destruct (main_as_written np_cos np_sin) as (r & s & Hmain).
  exists r, s. unfold AsWritten.main in *.
  rewrite (main_default_package _ _ _ _ _ _ _ _ _ _ _
             ["setrun.py"; "amrclaw"; "extra"] "setrun.py");
    [exact Hmain | discriminate].
Defined.

Lemma main_rejected_witness :
  lower "amrclaw" <> "geoclaw" /\
  forall np_cos np_sin : spec_float -> spec_float,
    AsWritten.main np_cos np_sin ["setrun.py"; "amrclaw"]
    = ([], inl (AssertionError "Expected claw_pkg = 'geoclaw'")).
Proof.
  split; [discriminate |].
  intros np_cos np_sin. unfold AsWritten.main.
  apply main_rejected. discriminate.
Defined.

(** ** Binary64 on a range of constants *)

Lemma forallb_seqZ (P : Z -> bool) (a n : Z) :
  forallb P (seqZ a n) = true -> forall z, a <= z < a + n -> P z = true.
Proof.
  intros Hall z Hz. rewrite forallb_forall in Hall. apply Hall.
  apply list_elem_of_In, elem_of_seqZ. lia.
Qed.

(** In binary64, for every whole number of hours from 1 to 500 and the
    other constants of the file, style 1 gives what exact arithmetic
    gives: [nout] = 4 * hours + 48 and [tfinal] = 3600 * hours. *)
Theorem schedule_binary64_exact (h : Z) :
  1 <= h <= 500 ->
  exists (r : ClawRunData spec_float) (tf : spec_float),
    setrun AsWritten.RAMP_UP_TIME AsWritten.N_gauges 1 (Int h) AsWritten.step
      AsWritten.tout "geoclaw" = inr r /\
    clawdata r !! "nout" = Some (VNum (Int (4 * h + 48))) /\
    clawdata r !! "tfinal" = Some (VNum (Float tf)) /\
    SFcompare tf (B64.of_Z (3600 * h)) = Some Eq.
Proof.
  intros Hh.
  assert (forallb schedule_exact_binary64 (seqZ 1 500) = true) as Hall
    by (vm_compute; reflexivity).
  pose proof (forallb_seqZ _ _ _ Hall h ltac:(lia)) as Hc.
  unfold schedule_exact_binary64 in Hc.
  destruct (setrun (F:=spec_float) AsWritten.RAMP_UP_TIME AsWritten.N_gauges 1
              (Int h) AsWritten.step AsWritten.tout "geoclaw") as [e | r];
    [discriminate Hc |].
  unfold attr in Hc.
  destruct (clawdata r !! "nout") as [[[n | ?] | | | |] |] eqn:Hnout;
    try discriminate Hc.
  destruct (clawdata r !! "tfinal") as [[[? | tf] | | | |] |] eqn:Htfinal;
    try discriminate Hc.
  apply andb_prop in Hc as [Hn Htf]. apply Z.eqb_eq in Hn. subst n.
  exists r, tf. split; [reflexivity |]. split; [exact Hnout |].
  split; [exact Htfinal |].
  destruct (SFcompare tf (B64.of_Z (3600 * h))) as [[| |] |];
    [reflexivity | discriminate Htf ..].
Qed.

Lemma schedule_binary64_exact_witness :
  1 <= 72 <= 500 /\
  exists (r : ClawRunData spec_float) (tf : spec_float),
    setrun AsWritten.RAMP_UP_TIME AsWritten.N_gauges 1 (Int 72) AsWritten.step
      AsWritten.tout "geoclaw" = inr r /\
    clawdata r !! "nout" = Some (VNum (Int 336)) /\
    clawdata r !! "tfinal" = Some (VNum (Float tf)) /\
    SFcompare tf (B64.of_Z 259200) = Some Eq.
Proof.
  split; [lia |]. apply (schedule_binary64_exact 72). lia.
Defined.

(** In binary64, for every number of gauges from 1 to 100, [setgeo]
    places that many gauges, each strictly between -275000.0 and
    275000.0, at strictly increasing y. *)
Theorem gauges_binary64_ordered (N : Z) :
  1 <= N <= 100 -> gauges_ordered_binary64 N = true.
Proof.
  intros HN.
  assert (forallb gauges_ordered_binary64 (seqZ 1 100) = true) as Hall
    by (vm_compute; reflexivity).
  apply (forallb_seqZ _ _ _ Hall). lia.
Qed.

Lemma gauges_binary64_ordered_witness :
  1 <= 21 <= 100 /\ gauges_ordered_binary64 AsWritten.N_gauges = true.
Proof.
  split; [lia |]. apply (gauges_binary64_ordered 21). lia.
Defined.

(** * Binary64 *)

(** ** Integers as doubles *)

Lemma Zpos_iter_xO (m k : positive) :
  Zpos (Pos.iter xO m k) = Zpos m * 2 ^ Zpos k.
Proof.
  induction k as [| k IH] using Pos.peano_ind.
  - simpl. lia.
  - rewrite Pos.iter_succ, Pos2Z.inj_succ, Z.pow_succ_r by lia.
    rewrite Pos2Z.inj_xO, IH. lia.
Qed.

Lemma digits2_pos_iter_xO (m k : positive) :
  digits2_pos (Pos.iter xO m k) = (digits2_pos m + k)%positive.
Proof.
  induction k as [| k IH] using Pos.peano_ind.
  - simpl. lia.
  - rewrite Pos.iter_succ. simpl. rewrite IH. lia.
Qed.

Lemma digits2_pos_bound (m : positive) :
  2 ^ (Zpos (digits2_pos m) - 1) <= Zpos m < 2 ^ Zpos (digits2_pos m).
Proof.
  induction m as [m IH | m IH |]; simpl digits2_pos; [| | simpl; lia].
  all: assert (2 ^ Zpos (digits2_pos m) = 2 * 2 ^ (Zpos (digits2_pos m) - 1))
         as Hd by (rewrite <- Z.pow_succ_r by lia; f_equal; lia).
  all: rewrite Pos2Z.inj_succ.
  all: replace (Z.succ (Zpos (digits2_pos m)) - 1)
         with (Zpos (digits2_pos m)) by lia.
  all: rewrite Z.pow_succ_r by lia; lia.
Qed.

(** A mantissa of 53 digits with an exponent in range is not rounded. *)
Lemma binary_round_aux_canonical (sx : bool) (mz : positive) (ez : Z) :
  Zpos (digits2_pos mz) = 53 -> -1074 <= ez <= 971 ->
  binary_round_aux B64.prec B64.emax sx (Zpos mz) ez loc_Exact
  = S754_finite sx mz ez.
Proof.
  intros Hd He.
  assert (shr_fexp B64.prec B64.emax (Zpos mz) ez loc_Exact
          = ({| shr_m := Zpos mz; shr_r := false; shr_s := false |}, ez)) as Hs.
  { unfold shr_fexp, Zdigits2, fexp, emin, B64.prec, B64.emax. rewrite Hd.
    replace (Z.max (53 + ez - 53) (3 - 1024 - 53) - ez) with 0 by lia.
    reflexivity. }
  unfold binary_round_aux. rewrite Hs.
  cbn [shr_m loc_of_shr_record round_nearest_even]. rewrite Hs.
  cbn [shr_m]. unfold B64.prec, B64.emax.
  replace (ez <=? 1024 - 53) with true by (symmetry; apply Z.leb_le; lia).
  reflexivity.
Qed.

(** An integer below 2^53 is a double: [float(n)] is exact. *)
Lemma of_Z_pos (sx : bool) (m : positive) :
  Zpos m < 2 ^ 53 ->
  exists (mz : positive) (e : Z),
    binary_round B64.prec B64.emax sx m 0 = S754_finite sx mz e /\
    -52 <= e <= 0 /\ Zpos mz = Zpos m * 2 ^ (- e).
Proof.
  intros Hm. pose proof (digits2_pos_bound m) as [Hlo _].
  assert (Zpos (digits2_pos m) <= 53) as Hd.
  { destruct (Z_le_gt_dec (Zpos (digits2_pos m)) 53) as [| Hgt]; [done |].
    assert (2 ^ 53 <= 2 ^ (Zpos (digits2_pos m) - 1))
      by (apply Z.pow_le_mono_r; lia). lia. }
  unfold binary_round, shl_align, fexp, emin, B64.prec, B64.emax.
  replace (Z.max (Zpos (digits2_pos m) + 0 - 53) (3 - 1024 - 53) - 0)
    with (Zpos (digits2_pos m) - 53) by lia.
  replace (Z.max (Zpos (digits2_pos m) + 0 - 53) (3 - 1024 - 53))
    with (Zpos (digits2_pos m) - 53) by lia.
  destruct (Z.eq_dec (Zpos (digits2_pos m)) 53) as [Heq | Hne].
  - rewrite Heq. simpl Z.sub. cbv iota.
    exists m, 0. split; [| split; [lia | simpl; lia]].
    apply (binary_round_aux_canonical sx m 0); [exact Heq | lia].
  - set (p := Z.to_pos (53 - Zpos (digits2_pos m))).
    assert (Zpos p = 53 - Zpos (digits2_pos m)) as Hp
      by (unfold p; rewrite Z2Pos.id; lia).
    replace (Zpos (digits2_pos m) - 53) with (Zneg p) by lia.
    cbv iota.
    exists (Pos.iter xO m p), (Zneg p).
    split; [| split; [lia |]].
    + apply binary_round_aux_canonical; [| lia].
      rewrite digits2_pos_iter_xO, Pos2Z.inj_add. lia.
    + rewrite Zpos_iter_xO. reflexivity.
Qed.

Lemma of_Z_exact (z : Z) :
  0 < z < 2 ^ 53 ->
  exists (mz : positive) (e : Z),
    B64.of_Z z = S754_finite false mz e /\
    -52 <= e <= 0 /\ Zpos mz = z * 2 ^ (- e).
Proof.
  intros Hz. destruct z as [| m | m]; try lia.
  unfold B64.of_Z, binary_normalize. apply of_Z_pos. lia.
Qed.

(** [int(float(n))] is [n]. *)
Lemma to_int_of_Z (z : Z) : 0 <= z < 2 ^ 53 -> B64.to_int (B64.of_Z z) = inr z.
Proof.
  intros Hz. destruct (Z.eq_dec z 0) as [-> | Hnz]; [reflexivity |].
  destruct (of_Z_exact z) as (mz & e & -> & He & Hmz); [lia |].
  unfold B64.to_int. cbn [ret]. f_equal.
  destruct (0 <=? e) eqn:E.
  - apply Z.leb_le in E. replace e with 0 in * by lia. simpl in *. lia.
  - rewrite Hmz. apply Z.div_mul. apply Z.pow_nonzero; lia.
Qed.

(** [float(n)] returns, with a double that is not zero. *)
Lemma of_int_returns (z : Z) :
  0 < z < 2 ^ 53 ->
  B64.of_int z = inr (B64.of_Z z) /\
  SFeqb (B64.of_Z z) (S754_zero false) = false.
Proof.
  intros Hz. unfold B64.of_int.
  destruct (of_Z_exact z Hz) as (mz & e & -> & _). done.
Qed.

(** ** [int] and [np.ceil] on doubles *)

Lemma Zpos_to_pos_pow (e : Z) : e < 0 -> Zpos (Z.to_pos (2 ^ (- e))) = 2 ^ (- e).
Proof. intros He. apply Z2Pos.id. apply Z.pow_pos_nonneg; lia. Qed.

(** [int(x)] is the floor of a double that is not negative. *)
Lemma to_int_floor (x : spec_float) :
  B64.is_finite x = true -> (0 <= B64.to_Q x)%Q ->
  B64.to_int x = inr (Qfloor (B64.to_Q x)).
Proof.
  destruct x as [s | s | | s m e]; try discriminate; intros _ Hx.
  - reflexivity.
  - unfold B64.to_Q in *. unfold B64.to_int. cbn [ret].
    destruct s.
    { exfalso. destruct (0 <=? e) eqn:E; unfold Qle in Hx; simpl in Hx;
        [| lia].
      apply Z.leb_le in E.
      assert (0 < 2 ^ e) by (apply Z.pow_pos_nonneg; lia). nia. }
    f_equal. destruct (0 <=? e) eqn:E.
    + by rewrite Qfloor_Z.
    + apply Z.leb_gt in E. unfold Qfloor. by rewrite Zpos_to_pos_pow.
Qed.

Lemma Zceiling_div (m d : Z) :
  0 < d -> - (- m / d) = if m mod d =? 0 then m / d else m / d + 1.
Proof.
  intros Hd. destruct (m mod d =? 0) eqn:E.
  - apply Z.eqb_eq in E. rewrite Z.div_opp_l_z by lia. lia.
  - apply Z.eqb_neq in E. rewrite Z.div_opp_l_nz by lia. lia.
Qed.

(** [int(np.ceil(x))] is the ceiling of a double that is not negative
    (and is below 2^52, where doubles have a fractional part). *)
Lemma to_int_ceil (x : spec_float) :
  B64.is_finite x = true -> (0 <= B64.to_Q x)%Q ->
  (B64.to_Q x <= inject_Z (2 ^ 52))%Q ->
  B64.to_int (B64.ceil x) = inr (Qceiling (B64.to_Q x)).
Proof.
  destruct x as [s | s | | s m e]; try discriminate; intros _ Hx Hb.
  - reflexivity.
  - unfold B64.to_Q in *.
    destruct s.
    { exfalso. destruct (0 <=? e) eqn:E; unfold Qle in Hx; simpl in Hx;
        [| lia].
      apply Z.leb_le in E.
      assert (0 < 2 ^ e) by (apply Z.pow_pos_nonneg; lia). nia. }
    unfold B64.ceil. destruct (0 <=? e) eqn:E.
    + unfold B64.to_int. rewrite E. cbn [ret]. by rewrite Qceiling_Z.
    + apply Z.leb_gt in E.
      assert (0 < 2 ^ (- e)) as Hd by (apply Z.pow_pos_nonneg; lia).
      unfold Qceiling, Qfloor. cbn [Qopp Qnum Qden].
      rewrite Zpos_to_pos_pow by done.
      change (- Zpos m) with (- (Zpos m)).
      rewrite Zceiling_div by done.
      assert (Zpos m / 2 ^ (- e) <= 2 ^ 52) as Hq.
      { unfold Qle in Hb. cbn [Qnum Qden inject_Z] in Hb.
        rewrite Zpos_to_pos_pow in Hb by done.
        apply Z.div_le_upper_bound; lia. }
      assert (0 <= Zpos m / 2 ^ (- e)) by (apply Z.div_pos; lia).
      assert (2 ^ 52 + 1 < 2 ^ 53) by (vm_compute; reflexivity).
      destruct (Zpos m mod 2 ^ (- e) =? 0); apply to_int_of_Z; lia.
Qed.

(** A rounded result has the sign that it was given. *)
Lemma binary_round_aux_sign (sx : bool) (m e : Z) (l : location) (x : spec_float) :
  binary_round_aux B64.prec B64.emax sx m e l = x ->
  B64.is_finite x = true ->
  x = S754_zero sx \/ exists mx ex, x = S754_finite sx mx ex.
Proof.
  unfold binary_round_aux.
  destruct (shr_fexp _ _ m e l) as [mrs' e'].
  destruct (shr_fexp _ _ _ e' loc_Exact) as [mrs'' e''].
  destruct (shr_m mrs'') as [| p | p]; [| destruct (e'' <=? _) |];
    intros <-; try discriminate; eauto.
Qed.

(** ** The gauges in binary64 *)

Lemma gauge_y_binary64 (N i : Z) :
  0 < N + 1 < 2 ^ 53 -> 0 < i + 1 < 2 ^ 53 ->
  gauge_y N i = inr (Float (gauge_binary64 N i)).
Proof.
  intros HN Hi. unfold gauge_y.
  destruct (of_int_returns (N + 1) HN) as [HN1 HN2].
  destruct (of_int_returns (i + 1) Hi) as [Hi1 _].
  cbn [py_add py_div py_mul py_neg lit to_float bind ret fdiv float_of_int
       fadd fmul fneg float_lit b64_float].
  rewrite HN1. cbn [bind ret]. unfold B64.div. rewrite HN2.
  cbn [py_add py_div py_mul py_neg lit to_float bind ret fdiv float_of_int
       fadd fmul fneg float_lit b64_float].
  rewrite Hi1. reflexivity.
Qed.

Lemma gauges_loop_binary64 (N : Z) :
  N + 1 < 2 ^ 53 ->
  for_each (xrange 0 N) (place_gauge N) [] =
  inr ((fun i => gauge_row_binary64 i (gauge_binary64 N i)) <$> xrange 0 N).
Proof.
  intros HN.
  rewrite (for_each_append (fun i => gauge_row_binary64 i (gauge_binary64 N i)));
    [done |].
  intros i s Hi. apply elem_of_xrange in Hi.
  unfold place_gauge. rewrite gauge_y_binary64 by lia. reflexivity.
Qed.

(** In binary64 [setgeo] returns for every number of gauges below 2^53
    - 1, on run data that have [geodata]. *)
Lemma setgeo_binary64 (N : Z) (r : ClawRunData spec_float) (g0 : obj spec_float) :
  N + 1 < 2 ^ 53 -> geodata r = Some g0 ->
  exists g, setgeo N r = inr (with_geodata r g) /\
    g !! "gauges" =
      Some (VList ((fun i => gauge_row_binary64 i (gauge_binary64 N i))
                   <$> xrange 0 N)).
Proof.
  intros HN Hg. unfold setgeo. rewrite Hg, gauges_loop_binary64 by done.
  cbn [bind ret]. eexists. split; [reflexivity |].
  lookup_attr. reflexivity.
Qed.

(** ** Style 1, from its parts *)

(** Style 1 returns as soon as [setgeo], the two terms of the frame
    count and the final time return, in every model of the floats. *)
Lemma setrun_style1_returns {F : Type} `{PyFloat F} (RAMP nh step : num F)
    (N : Z) (tout : list (num F)) (claw_pkg : string) (rg : ClawRunData F)
    (a b : Z) (tf : num F) :
  lower claw_pkg = "geoclaw" ->
  setgeo N (new_ClawRunData claw_pkg 2) = inr rg ->
  (let* q := py_div nh step in py_int q) = inr a ->
  (let* d := py_mul step (py_sq (Int 60)) in
   let* r := py_div RAMP d in
   let* c := py_ceil r in
   py_int c) = inr b ->
  py_mul nh (py_sq (lit 60 0)) = inr tf ->
  exists r : ClawRunData F,
    setrun RAMP N 1 nh step tout claw_pkg = inr r /\
    geodata r = geodata rg /\
    clawdata r !! "t0" = Some (VNum (py_neg RAMP)) /\
    clawdata r !! "nout" = Some (vint (a + b)) /\
    clawdata r !! "tfinal" = Some (VNum tf).
Proof.
  intros Hpkg Hgeo Ha Hb Htf. unfold setrun.
  rewrite assert_accepted by done. rewrite Hgeo.
  cbn [bind ret]. change (1 =? 1) with true. cbv iota.
  destruct (py_div nh step) as [e | q]; cbn [bind] in Ha |- *;
    [discriminate Ha |].
  rewrite Ha. cbn [bind].
  destruct (py_mul step (py_sq (Int 60))) as [e | d]; cbn [bind] in Hb |- *;
    [discriminate Hb |].
  destruct (py_div RAMP d) as [e | r0]; cbn [bind] in Hb |- *;
    [discriminate Hb |].
  destruct (py_ceil r0) as [e | c]; cbn [bind] in Hb |- *;
    [discriminate Hb |].
  rewrite Hb. cbn [bind]. rewrite Htf. cbn [bind ret].
  eexists. split; [reflexivity |].
  cbn [clawdata geodata with_clawdata].
  split; [reflexivity |].
  split; [by lookup_attr |]. split; by lookup_attr.
Qed.

Lemma attr_inv {F} (k : string) (x : result (ClawRunData F)) (v : value F) :
  attr k x = Some v -> exists r, x = inr r /\ clawdata r !! k = Some v.
Proof. destruct x as [e | r]; [discriminate | eauto]. Qed.

(** ** C1 *)

(** C1 as stated fails, whether the formula is read on the numbers as
    they are written or on the doubles that they denote.  At 0.3 hours
    and a cadence of 0.1 the code has 122 frames, while the formula on
    3/10 and 1/10 gives 3 + 120 = 123: the double 0.3 / 0.1 is below 3.
    At 40 hours and a cadence of 0.1 the code has 520 frames, while
    floor and ceiling of the exact quotients of the doubles give 519:
    the double 0.1 is above 1/10, and 40 / 0.1 is rounded to 400.0.  At
    the integer cadence 5, where [/] is the floor division of Python 2
    on 43200 and 18000, the code has 10 frames and the formula 11. *)
Lemma C1_formula_not_exact :
  (exists r : ClawRunData spec_float,
     setrun (Int 43200) 21 1 (Int 40) (lit 1 (-1)) [] "geoclaw" = inr r /\
     clawdata r !! "nout" = Some (VNum (Int 520))) /\
  Qfloor (40 / B64.to_Q (B64.of_decimal 1 (-1)))
  + Qceiling (43200 / (B64.to_Q (B64.of_decimal 1 (-1)) * 3600)) = 519 /\
  (exists r : ClawRunData spec_float,
     setrun (Int 43200) 21 1 (lit 3 (-1)) (lit 1 (-1)) [] "geoclaw" = inr r /\
     clawdata r !! "nout" = Some (VNum (Int 122))) /\
  Qfloor ((3 # 10) / (1 # 10)) + Qceiling (43200 / ((1 # 10) * 3600)) = 123 /\
  (exists r : ClawRunData spec_float,
     setrun (Int 43200) 21 1 (Int 40) (Int 5) [] "geoclaw" = inr r /\
     clawdata r !! "nout" = Some (VNum (Int 10))) /\
  Qfloor (40 / 5) + Qceiling (43200 / (5 * 3600)) = 11.
Proof.
  split; [apply attr_inv; vm_compute; reflexivity |].
  split; [vm_compute; reflexivity |].
  split; [apply attr_inv; vm_compute; reflexivity |].
  split; [vm_compute; reflexivity |].
  split; [apply attr_inv; vm_compute; reflexivity |].
  vm_compute; reflexivity.
Qed.

Lemma to_float_of_py_div (x y q : num spec_float) (s : spec_float) :
  py_div x (Float s) = inr q -> exists f, to_float x = inr f.
Proof.
  destruct x as [z | f]; [| by eexists].
  cbn [py_div to_float]. destruct (float_of_int z) as [e | f]; [discriminate |].
  by eexists.
Qed.

(** Style 1 with a float cadence, from the two quotients that line 116
    computes: [nout] is the floor of the one plus the ceiling of the
    other, when they are finite and not negative. *)
Lemma style1_frame_count_binary64 (RAMP nh : num spec_float) (s q1 q2 : spec_float)
    (N : Z) (tout : list (num spec_float)) :
  N + 1 < 2 ^ 53 ->
  py_div nh (Float s) = inr (Float q1) ->
  (let* d := py_mul (Float s) (py_sq (Int 60)) in py_div RAMP d)
  = inr (Float q2) ->
  B64.is_finite q1 = true -> (0 <= B64.to_Q q1)%Q ->
  B64.is_finite q2 = true -> (0 <= B64.to_Q q2)%Q ->
  (B64.to_Q q2 <= inject_Z (2 ^ 52))%Q ->
  exists (r : ClawRunData spec_float) (f : spec_float),
    setrun RAMP N 1 nh (Float s) tout "geoclaw" = inr r /\
    clawdata r !! "nout" =
      Some (VNum (Int (Qfloor (B64.to_Q q1) + Qceiling (B64.to_Q q2)))) /\
    to_float nh = inr f /\
    clawdata r !! "tfinal" =
      Some (VNum (Float (SFmul B64.prec B64.emax f (B64.of_Z 3600)))).
Proof.
  intros HN Hq1 Hq2 Hf1 Hp1 Hf2 Hp2 Hb2.
  destruct (to_float_of_py_div _ (Float s) _ s Hq1) as [f Hf].
  destruct (setgeo_binary64 N (new_ClawRunData "geoclaw" 2) ∅ HN eq_refl)
    as (g & Hgeo & _).
  destruct (setrun_style1_returns RAMP nh (Float s) N tout "geoclaw" _
              (Qfloor (B64.to_Q q1)) (Qceiling (B64.to_Q q2))
              (Float (SFmul B64.prec B64.emax f (B64.of_Z 3600)))
              eq_refl Hgeo) as (r & Hrun & _ & _ & Hnout & Htf).
  - rewrite Hq1. cbn [bind py_int int_of_float b64_float].
    by apply to_int_floor.
  - destruct (py_mul (Float s) (py_sq (Int 60))) as [e | d];
      cbn [bind] in Hq2 |- *; [discriminate Hq2 |].
    rewrite Hq2. cbn [bind ret py_ceil py_int to_float np_ceil int_of_float
                      b64_float].
    by apply to_int_ceil.
  - destruct nh as [z | x]; cbn [py_mul py_sq lit to_float] in Hf |- *.
    + rewrite Hf. reflexivity.
    + cbn [ret] in Hf. injection Hf as ->. reflexivity.
  - exists r, f. split; [exact Hrun |]. split; [exact Hnout |].
    split; [exact Hf | exact Htf].
Qed.

(** ** Signs *)

Lemma to_Q_finite_pos (m : positive) (e : Z) :
  (0 < B64.to_Q (S754_finite false m e))%Q.
Proof.
  cbn [B64.to_Q]. destruct (Z.leb_spec 0 e) as [He | He].
  - unfold Qlt, inject_Z; cbn [Qnum Qden].
    assert (0 < 2 ^ e) by (apply Z.pow_pos_nonneg; lia). nia.
  - reflexivity.
Qed.

Lemma to_Q_finite_neg (m : positive) (e : Z) :
  (B64.to_Q (S754_finite true m e) < 0)%Q.
Proof.
  pose proof (to_Q_finite_pos m e) as Hpos. cbn [B64.to_Q] in Hpos |- *.
  apply Qopp_lt_compat in Hpos. exact Hpos.
Qed.

(** A finite double that is not negative is a zero or has the sign bit
    clear; one that is positive has the sign bit clear. *)
Lemma nonneg_cases (x : spec_float) :
  B64.is_finite x = true -> (0 <= B64.to_Q x)%Q ->
  (exists s, x = S754_zero s) \/ exists m e, x = S754_finite false m e.
Proof.
  destruct x as [s | | | [|] m e]; try discriminate; intros _ Hx; eauto.
  exfalso. pose proof (to_Q_finite_neg m e). lra.
Qed.

Lemma pos_cases (x : spec_float) :
  B64.is_finite x = true -> (0 < B64.to_Q x)%Q ->
  exists m e, x = S754_finite false m e.
Proof.
  intros Hf Hx. destruct (nonneg_cases x Hf ltac:(lra)) as [[s ->] | H]; [| exact H].
  cbn [B64.to_Q] in Hx. lra.
Qed.

Lemma sign_nonneg (x : spec_float) :
  x = S754_zero false \/ (exists mx ex, x = S754_finite false mx ex) ->
  (0 <= B64.to_Q x)%Q.
Proof.
  intros [-> | (m & e & ->)]; [cbn; lra |].
  pose proof (to_Q_finite_pos m e). lra.
Qed.

(** The quotient of two positive doubles, when finite, is not negative. *)
Lemma SFdiv_pos_nonneg (mx my : positive) (ex ey : Z) :
  B64.is_finite (SFdiv B64.prec B64.emax (S754_finite false mx ex)
                   (S754_finite false my ey)) = true ->
  (0 <= B64.to_Q (SFdiv B64.prec B64.emax (S754_finite false mx ex)
                    (S754_finite false my ey)))%Q.
Proof.
  cbn [SFdiv xorb].
  destruct (SFdiv_core_binary _ _ _ _ _ _) as [[mz ez] lz].
  intros Hf. apply sign_nonneg. by eapply binary_round_aux_sign.
Qed.

(** The quotient of a double that is not negative by the product of two
    positive doubles, when finite, is not negative. *)
Lemma SFdiv_SFmul_nonneg (x : spec_float) (my mz : positive) (ey ez : Z) :
  B64.is_finite x = true -> (0 <= B64.to_Q x)%Q ->
  B64.is_finite
    (SFdiv B64.prec B64.emax x
       (SFmul B64.prec B64.emax (S754_finite false my ey)
          (S754_finite false mz ez))) = true ->
  (0 <= B64.to_Q
          (SFdiv B64.prec B64.emax x
             (SFmul B64.prec B64.emax (S754_finite false my ey)
                (S754_finite false mz ez))))%Q.
Proof.
  intros Hfx Hx.
  destruct (SFmul B64.prec B64.emax (S754_finite false my ey)
              (S754_finite false mz ez)) as [sd | sd | | sd md ed] eqn:Hd.
  - destruct (nonneg_cases x Hfx Hx) as [[s ->] | (m & e & ->)]; discriminate.
  - destruct (nonneg_cases x Hfx Hx) as [[s ->] | (m & e & ->)];
      intros _; cbn; lra.
  - destruct (nonneg_cases x Hfx Hx) as [[s ->] | (m & e & ->)]; discriminate.
  - assert (sd = false) as ->.
    { cbn [SFmul xorb] in Hd.
      destruct (binary_round_aux_sign _ _ _ _ _ Hd eq_refl)
        as [? | (? & ? & ?)]; congruence. }
    destruct (nonneg_cases x Hfx Hx) as [[s ->] | (m & e & ->)].
    + intros _. cbn. lra.
    + apply SFdiv_pos_nonneg.
Qed.

Lemma SFeqb_zero (x : spec_float) :
  SFeqb x (S754_zero false) = true -> exists s, x = S754_zero s.
Proof.
  destruct x as [s | [|] | | [|] m e]; try discriminate. by eexists.
Qed.

Lemma SFdiv_by_zero (x : spec_float) (s : bool) :
  B64.is_finite (SFdiv B64.prec B64.emax x (S754_zero s)) = false.
Proof. by destruct x. Qed.

(** C1, amended: for output style 1 and a cadence that is a float,
    positive and finite, with hours that convert to a positive double
    and a ramp-up time that converts to a double that is not negative,
    [nout] is floor(q1) + ceil(q2), where q1 is the double
    hours / step and q2 the double RAMP_UP_TIME / (step * 3600), each
    operation rounded to nearest, and [tfinal] is the double
    hours * 3600: provided that the two quotients are finite (q2 at
    most 2^52), for every number of gauges below 2^53 - 1.  The numbers
    q1 and q2 are not the exact quotients. *)
Theorem C1_style1_frame_count (RAMP nh : num spec_float) (s fh fr : spec_float)
    (N : Z) (tout : list (num spec_float)) :
  N + 1 < 2 ^ 53 ->
  to_float nh = inr fh -> B64.is_finite fh = true -> (0 < B64.to_Q fh)%Q ->
  B64.is_finite s = true -> (0 < B64.to_Q s)%Q ->
  to_float RAMP = inr fr -> B64.is_finite fr = true -> (0 <= B64.to_Q fr)%Q ->
  B64.is_finite (SFdiv B64.prec B64.emax fh s) = true ->
  B64.is_finite
    (SFdiv B64.prec B64.emax fr (SFmul B64.prec B64.emax s (B64.of_Z 3600)))
  = true ->
  (B64.to_Q
     (SFdiv B64.prec B64.emax fr (SFmul B64.prec B64.emax s (B64.of_Z 3600)))
   <= inject_Z (2 ^ 52))%Q ->
  exists r : ClawRunData spec_float,
    setrun RAMP N 1 nh (Float s) tout "geoclaw" = inr r /\
    clawdata r !! "nout" =
      Some (VNum (Int
        (Qfloor (B64.to_Q (SFdiv B64.prec B64.emax fh s))
         + Qceiling
             (B64.to_Q
                (SFdiv B64.prec B64.emax fr
                   (SFmul B64.prec B64.emax s (B64.of_Z 3600))))))) /\
    clawdata r !! "tfinal" =
      Some (VNum (Float (SFmul B64.prec B64.emax fh (B64.of_Z 3600)))).
Proof.
  intros HN Hnh Hfh Hh Hfs Hs HRAMP Hfr Hr Hq1 Hq2 Hb2.
  destruct (pos_cases s Hfs Hs) as (ms & es & ->).
  destruct (pos_cases fh Hfh Hh) as (mh & eh & ->).
  destruct (style1_frame_count_binary64 RAMP nh (S754_finite false ms es)
              (SFdiv B64.prec B64.emax (S754_finite false mh eh)
                 (S754_finite false ms es))
              (SFdiv B64.prec B64.emax fr
                 (SFmul B64.prec B64.emax (S754_finite false ms es)
                    (B64.of_Z 3600)))
              N tout HN) as (r & f & Hrun & Hnout & Hf & Htf);
    try assumption.
  - destruct nh as [z | x]; cbn [py_div to_float] in Hnh |- *.
    + rewrite Hnh. reflexivity.
    + cbn [ret] in Hnh. apply result_inr_inj in Hnh. subst x. reflexivity.
  - cbn [py_mul py_sq to_float float_of_int b64_float bind ret].
    change (B64.of_int (60 ^ 2)) with (@inr exn _ (B64.of_Z 3600)).
    cbn [bind ret].
    assert (fdiv fr (SFmul B64.prec B64.emax (S754_finite false ms es)
                       (B64.of_Z 3600))
            = inr (SFdiv B64.prec B64.emax fr
                     (SFmul B64.prec B64.emax (S754_finite false ms es)
                        (B64.of_Z 3600)))) as Hdiv.
    { cbn [fdiv b64_float]. unfold B64.div.
      destruct (SFeqb _ (S754_zero false)) eqn:Hz; [| reflexivity].
      apply SFeqb_zero in Hz as [sz Hz]. rewrite Hz in Hq2.
      by rewrite SFdiv_by_zero in Hq2. }
    destruct RAMP as [z | x]; cbn [py_div to_float] in HRAMP |- *.
    + rewrite HRAMP. cbn [bind ret fmul b64_float] in Hdiv |- *.
      rewrite Hdiv. reflexivity.
    + cbn [ret] in HRAMP. apply result_inr_inj in HRAMP. subst x.
      cbn [bind ret fmul b64_float] in Hdiv |- *. rewrite Hdiv. reflexivity.
  - apply SFdiv_pos_nonneg. exact Hq1.
  - change (B64.of_Z 3600) with (S754_finite false 7916483719987200 (-41))
      in Hq2 |- *.
    by apply SFdiv_SFmul_nonneg.
  - rewrite Hnh in Hf. apply result_inr_inj in Hf. subst f.
    exists r. split; [exact Hrun |]. split; [exact Hnout | exact Htf].
Qed.

Lemma C1_style1_frame_count_witness :
  exists r : ClawRunData spec_float,
    setrun AsWritten.RAMP_UP_TIME AsWritten.N_gauges 1 AsWritten.num_hours
      AsWritten.step AsWritten.tout "geoclaw" = inr r /\
    clawdata r !! "nout" = Some (VNum (Int (160 + 48))) /\
    clawdata r !! "tfinal" = Some (VNum (Float (B64.of_Z 144000))).
Proof.
  apply (C1_style1_frame_count AsWritten.RAMP_UP_TIME AsWritten.num_hours
           (B64.of_decimal 25 (-2)) (B64.of_Z 40) (B64.of_Z 43200)
           AsWritten.N_gauges AsWritten.tout);
    try (vm_compute; reflexivity); vm_compute; discriminate.
Defined.

(** ** C4 *)

(** What a run of output style 1 that has returned went through. *)
Lemma setrun_style1_inv {F : Type} `{PyFloat F} (RAMP nh step : num F)
    (N : Z) (tout : list (num F)) (claw_pkg : string) (r : ClawRunData F) :
  setrun RAMP N 1 nh step tout claw_pkg = inr r ->
  exists (q1 d q2 c : num F) (a b : Z) (tf : num F),
    py_div nh step = inr q1 /\ py_int q1 = inr a /\
    py_mul step (py_sq (Int 60)) = inr d /\ py_div RAMP d = inr q2 /\
    py_ceil q2 = inr c /\ py_int c = inr b /\
    py_mul nh (py_sq (lit 60 0)) = inr tf /\
    clawdata r !! "nout" = Some (vint (a + b)) /\
    clawdata r !! "tfinal" = Some (VNum tf).
Proof.
  intros Hrun. setrun_inversion Hrun; try (cbn in Eos; discriminate Eos).
  cbn [clawdata with_clawdata].
  do 7 eexists.
  repeat (split; [first [reflexivity | eassumption] |]).
  split; by lookup_attr.
Qed.

Lemma to_int_returns_finite (x : spec_float) (z : Z) :
  B64.to_int x = inr z -> B64.is_finite x = true.
Proof. destruct x; [reflexivity | discriminate | discriminate | reflexivity]. Qed.

Lemma ceil_finite (x : spec_float) :
  B64.is_finite (B64.ceil x) = true -> B64.is_finite x = true.
Proof. destruct x; intros Hx; [reflexivity | exact Hx | exact Hx | reflexivity]. Qed.

Lemma SFdiv_finite (x y : spec_float) :
  B64.is_finite (SFdiv B64.prec B64.emax x y) = true -> B64.is_finite x = true.
Proof. destruct x, y; try reflexivity; cbn; discriminate. Qed.

Lemma to_Q_opp (x : spec_float) : (B64.to_Q (SFopp x) == - B64.to_Q x)%Q.
Proof.
  destruct x as [s | s | | s m e]; try reflexivity.
  cbn [SFopp B64.to_Q]. destruct s; cbn [negb]; [| reflexivity].
  symmetry. apply Qopp_involutive.
Qed.

(** A ramp-up time with which the frame count of style 1 is computed is
    a number: an int or a finite double. *)
Lemma ramp_up_is_a_number (RAMP d q c : num spec_float) (b : Z) :
  py_div RAMP d = inr q -> py_ceil q = inr c -> py_int c = inr b ->
  exists v : Q, num_value RAMP = Some v.
Proof.
  intros Hq Hc Hb. destruct RAMP as [z | f]; [by eexists |].
  assert (exists y, q = Float (SFdiv B64.prec B64.emax f y)) as [y ->].
  { destruct d as [k | y]; cbn [py_div to_float bind ret] in Hq.
    - destruct (float_of_int k) as [e | y]; cbn [bind] in Hq; [discriminate |].
      destruct (fdiv f y) as [e | q'] eqn:Eq; cbn [bind ret] in Hq;
        [discriminate |].
      apply result_inr_inj in Hq; subst q. exists y.
      cbn [fdiv b64_float] in Eq. unfold B64.div in Eq.
      destruct (SFeqb y (S754_zero false)); [discriminate |].
      apply result_inr_inj in Eq. by subst.
    - destruct (fdiv f y) as [e | q'] eqn:Eq; cbn [bind ret] in Hq;
        [discriminate |].
      apply result_inr_inj in Hq; subst q. exists y.
      cbn [fdiv b64_float] in Eq. unfold B64.div in Eq.
      destruct (SFeqb y (S754_zero false)); [discriminate |].
      apply result_inr_inj in Eq. by subst. }
  cbn [py_ceil to_float bind ret np_ceil b64_float] in Hc.
  apply result_inr_inj in Hc; subst c.
  cbn [py_int int_of_float b64_float] in Hb.
  apply to_int_returns_finite, ceil_finite, SFdiv_finite in Hb.
  cbn [num_value]. rewrite Hb. by eexists.
Qed.

Lemma num_value_neg (x : num spec_float) (v : Q) :
  num_value x = Some v ->
  exists v0 : Q, num_value (py_neg x) = Some v0 /\ (v0 == - v)%Q.
Proof.
  destruct x as [z | f]; cbn [num_value py_neg fneg b64_float].
  - intros [= <-]. eexists. split; [reflexivity |].
    unfold Qeq; simpl; lia.
  - replace (B64.is_finite (SFopp f)) with (B64.is_finite f)
      by (by destruct f).
    destruct (B64.is_finite f); [| discriminate].
    intros [= <-]. eexists. split; [reflexivity | apply to_Q_opp].
Qed.

(** C4: the initial time of the numerics and the ramp-up time of the
    storm come from the one constant RAMP_UP_TIME, and for every value
    of it with which both configurators return, [t0] is a number whose
    value is minus the value of [ramp_up_t]: in binary64, for whatever
    the other constants are.  With output style 1, the style of the
    file, [setrun] returns only when RAMP_UP_TIME is an int or a finite
    double; with the other styles the values are opposite whenever
    RAMP_UP_TIME is such a number. *)
Theorem C4_start_time_ramp_up (RAMP nh step : num spec_float) (N outstyle : Z)
    (tout wind R : list (num spec_float)) (Pc : spec_float)
    (np_cos np_sin : spec_float -> spec_float)
    (r : ClawRunData spec_float) (s : obj spec_float) :
  setrun RAMP N outstyle nh step tout "geoclaw" = inr r ->
  set_storm RAMP wind R Pc np_cos np_sin = inr s ->
  exists t0 ramp_up_t : num spec_float,
    clawdata r !! "t0" = Some (VNum t0) /\
    s !! "ramp_up_t" = Some (VNum ramp_up_t) /\
    (forall v : Q, num_value ramp_up_t = Some v ->
       exists v0 : Q, num_value t0 = Some v0 /\ (v0 == - v)%Q) /\
    (outstyle = 1 -> exists v : Q, num_value ramp_up_t = Some v).
Proof.
  intros Hrun Hstorm.
  destruct (set_storm_returns RAMP wind R Pc np_cos np_sin)
    as (s' & Hs' & Hramp & _).
  rewrite Hs' in Hstorm. apply result_inr_inj in Hstorm. subst s'.
  destruct (setrun_inv _ _ _ _ _ _ _ _ Hrun) as (_ & _ & _ & _ & _ & Ht0 & _).
  exists (py_neg RAMP), RAMP.
  split; [exact Ht0 |]. split; [exact Hramp |].
  split; [apply num_value_neg |].
  intros ->.
  destruct (setrun_style1_inv _ _ _ _ _ _ _ Hrun)
    as (q1 & d & q2 & c & a & b & tf & _ & _ & _ & Hq & Hc & Hb & _).
  exact (ramp_up_is_a_number _ _ _ _ _ Hq Hc Hb).
Qed.

Lemma C4_start_time_ramp_up_witness :
  exists (r : ClawRunData spec_float) (s : obj spec_float)
         (t0 ramp_up_t : num spec_float),
    AsWritten.setrun "geoclaw" = inr r /\
    AsWritten.set_storm (fun _ => B64.of_Z 1) (fun _ => S754_zero false) = inr s /\
    clawdata r !! "t0" = Some (VNum t0) /\
    s !! "ramp_up_t" = Some (VNum ramp_up_t) /\
    (forall v : Q, num_value ramp_up_t = Some v ->
       exists v0 : Q, num_value t0 = Some v0 /\ (v0 == - v)%Q) /\
    (AsWritten.outstyle = 1 -> exists v : Q, num_value ramp_up_t = Some v).
Proof.
  destruct as_written_returns as [r Hr].
  destruct (set_storm_returns (F:=spec_float) AsWritten.RAMP_UP_TIME
              AsWritten.wind_refine AsWritten.R_refine AsWritten.Pc_mbar
              (fun _ => B64.of_Z 1) (fun _ => S754_zero false)) as (s & Hs & _).
  exists r, s.
  destruct (C4_start_time_ramp_up AsWritten.RAMP_UP_TIME AsWritten.num_hours
              AsWritten.step AsWritten.N_gauges AsWritten.outstyle
              AsWritten.tout AsWritten.wind_refine AsWritten.R_refine
              AsWritten.Pc_mbar (fun _ => B64.of_Z 1) (fun _ => S754_zero false)
              r s Hr Hs)
    as (t0 & ramp & H1 & H2 & H3 & H4).
  exists t0, ramp. repeat split; assumption.
Defined.

(** ** C9 *)

(** C9 fails on the code.  With the integer cadence 1 and 40 hours, a
    ramp-up time of 3601.0 seconds gives 42 frames and the longer
    ramp-up time of 7199 seconds gives 41: on two ints [/] of Python 2
    is the floor division, so that [np.ceil] receives 7199 / 3600 = 1,
    while 3601.0 / 3600 is 1.0002... and is rounded up to 2. *)
Theorem C9_frame_count_not_monotone :
  exists r r' : ClawRunData spec_float,
    setrun (lit 3601 0) 21 1 (Int 40) (Int 1) [] "geoclaw" = inr r /\
    clawdata r !! "nout" = Some (VNum (Int 42)) /\
    setrun (Int 7199) 21 1 (Int 40) (Int 1) [] "geoclaw" = inr r' /\
    clawdata r' !! "nout" = Some (VNum (Int 41)) /\
    exists v v' : Q,
      num_value (lit 3601 0) = Some v /\
      num_value (Int 7199) = Some v' /\ (v < v')%Q.
Proof.
  destruct (attr_inv "nout"
              (setrun (F:=spec_float) (lit 3601 0) 21 1 (Int 40) (Int 1) []
                 "geoclaw") (VNum (Int 42))) as (r & Hr & Hn);
    [vm_compute; reflexivity |].
  destruct (attr_inv "nout"
              (setrun (F:=spec_float) (Int 7199) 21 1 (Int 40) (Int 1) []
                 "geoclaw") (VNum (Int 41))) as (r' & Hr' & Hn');
    [vm_compute; reflexivity |].
  exists r, r'. repeat (split; [assumption |]).
  eexists _, _. split; [vm_compute; reflexivity |].
  split; [reflexivity |]. vm_compute. reflexivity.
Qed.

(** ** C3 *)






(** ** Further properties in binary64 *)

(** [setgeo] raises AttributeError exactly on run data without
    [geodata]; in binary64 it returns on all others, for every number
    of gauges that [xrange] takes (a machine integer) and that is below
    2^53 - 1. *)
Theorem setgeo_returns_iff (N : Z) (r : ClawRunData spec_float) :
  - 2 ^ 63 <= N -> N + 1 < 2 ^ 53 ->
  ((exists r', setgeo N r = inr r') <-> is_Some (geodata r)) /\
  (geodata r = None ->
   setgeo N r = inl (AttributeError "Missing geodata attribute")).
Proof.
  intros _ HN. split; [split |].
  - intros [r' Hrun]. unfold setgeo in Hrun.
    destruct (geodata r) as [g |]; [by eexists | discriminate].
  - intros [g Hg]. destruct (setgeo_binary64 N r g HN Hg) as (g' & Hrun & _).
    eauto.
  - intros Hg. unfold setgeo. by rewrite Hg.
Qed.

Lemma setgeo_returns_iff_witness :
  AsWritten.N_gauges + 1 < 2 ^ 53 /\
  (exists r' : ClawRunData spec_float,
     AsWritten.setgeo (new_ClawRunData "geoclaw" 2) = inr r') /\
  AsWritten.setgeo
    {| pkg := "geoclaw"; ndim := 2; clawdata := ∅;
       geodata := @None (obj spec_float) |}
  = inl (AttributeError "Missing geodata attribute").
Proof.
  split; [unfold AsWritten.N_gauges; lia |]. split.
  - apply (setgeo_returns_iff 21 (new_ClawRunData "geoclaw" 2));
      [lia | lia | by eexists].
  - apply (setgeo_returns_iff 21); [lia | lia | reflexivity].
Defined.

(** The output styles other than 1 involve no arithmetic: whenever the
    package name is accepted and [setgeo] returns, [setrun] returns,
    whatever the hours, the cadence and the ramp-up time are.  The
    style is stored as it is, and is not checked; style 2 stores the
    list of times and its length, style 3 stores [[1, 100]]. *)
Theorem setrun_other_styles {F : Type} `{PyFloat F} (RAMP nh step : num F)
    (N outstyle : Z) (tout : list (num F)) (claw_pkg : string)
    (rg : ClawRunData F) :
  lower claw_pkg = "geoclaw" ->
  setgeo N (new_ClawRunData claw_pkg 2) = inr rg ->
  outstyle <> 1 ->
  exists r : ClawRunData F,
    setrun RAMP N outstyle nh step tout claw_pkg = inr r /\
    clawdata r !! "outstyle" = Some (vint outstyle) /\
    (outstyle = 2 ->
     clawdata r !! "tout" = Some (vnums tout) /\
     clawdata r !! "nout" = Some (vint (Z.of_nat (length tout)))) /\
    (outstyle = 3 -> clawdata r !! "iout" = Some (VList [vint 1; vint 100])).
Proof.
  intros Hpkg Hgeo Hos.
  assert (exists r : ClawRunData F,
            setrun RAMP N outstyle nh step tout claw_pkg = inr r) as [r Hrun].
  { unfold setrun. rewrite assert_accepted by done. rewrite Hgeo.
    cbn [bind ret]. apply Z.eqb_neq in Hos. rewrite Hos.
    destruct (outstyle =? 2); [cbn [bind ret]; eauto |].
    destruct (outstyle =? 3); cbn [bind ret]; eauto. }
  exists r. split; [exact Hrun |].
  destruct (setrun_inv _ _ _ _ _ _ _ _ Hrun) as (_ & _ & _ & _ & _ & _ & Hst).
  split; [exact Hst |].
  clear Hgeo Hst.
  setrun_inversion Hrun; cbn [clawdata with_clawdata];
    repeat match goal with
    | E : (_ =? _) = true |- _ => apply Z.eqb_eq in E
    | E : (_ =? _) = false |- _ => apply Z.eqb_neq in E
    end;
    (split; [intros Hos'; first [lia | split; by lookup_attr]
            | intros Hos'; first [lia | by lookup_attr]]).
Qed.

Lemma setrun_other_styles_witness :
  exists r : ClawRunData spec_float,
    setrun AsWritten.RAMP_UP_TIME AsWritten.N_gauges 2 AsWritten.num_hours
      (Int 0) AsWritten.tout "geoclaw" = inr r /\
    clawdata r !! "outstyle" = Some (vint 2) /\
    clawdata r !! "tout" = Some (vnums AsWritten.tout) /\
    clawdata r !! "nout" = Some (vint 5).
Proof.
  destruct (setgeo_binary64 21 (new_ClawRunData "geoclaw" 2) ∅ ltac:(lia)
              eq_refl) as (g & Hgeo & _).
  destruct (setrun_other_styles (F:=spec_float) AsWritten.RAMP_UP_TIME
              AsWritten.num_hours (Int 0) AsWritten.N_gauges 2 AsWritten.tout
              "geoclaw" _ eq_refl Hgeo ltac:(lia))
    as (r & Hrun & Hst & H2 & _).
  exists r. split; [exact Hrun |]. split; [exact Hst |]. exact (H2 eq_refl).
Defined.

(** In binary64, for every number of gauges from 1 to 100 and the other
    constants of the file, [setrun] returns and every gauge lies
    strictly inside the computational domain that the same run stores
    in [clawdata]: [xlower] < x < [xupper], and y at least 25 km above
    [ylower] and at least 25 km below [yupper]. *)
Theorem gauges_inside_domain (N : Z) :
  1 <= N <= 100 -> inside_domain_binary64 N = true.
Proof.
  intros HN.
  assert (forallb inside_domain_binary64 (seqZ 1 100) = true) as Hall
    by (vm_compute; reflexivity).
  apply (forallb_seqZ _ _ _ Hall). lia.
Qed.

Lemma gauges_inside_domain_witness :
  1 <= 21 <= 100 /\ inside_domain_binary64 AsWritten.N_gauges = true.
Proof.
  split; [lia |]. apply (gauges_inside_domain 21). lia.
Defined.

(** In binary64, for every number of gauges from 1 to 100, the gauges
    are symmetric about y = 0 up to rounding: the y-coordinates of
    gauge i and of gauge N - 1 - i add up to zero within a nanometre.
    They need not add up to zero exactly: with 6 gauges the first and
    the last do not. *)
Theorem gauges_symmetric (N : Z) :
  1 <= N <= 100 ->
  symmetric_binary64 N = true /\
  ~ (B64.to_Q (gauge_binary64 6 0) + B64.to_Q (gauge_binary64 6 5) == 0)%Q.
Proof.
  intros HN. split.
  - assert (forallb symmetric_binary64 (seqZ 1 100) = true) as Hall
      by (vm_compute; reflexivity).
    apply (forallb_seqZ _ _ _ Hall). lia.
  - apply Qeq_bool_neq. vm_compute. reflexivity.
Qed.

Lemma gauges_symmetric_witness :
  1 <= 21 <= 100 /\ symmetric_binary64 AsWritten.N_gauges = true.
Proof.
  split; [lia |]. apply (gauges_symmetric 21). lia.
Defined.

Lemma hours_frames_all :
  forallb hours_frames_binary64 (seqZ 1 500) = true.
Proof. vm_compute. reflexivity. Qed.

Lemma ramp_frames_all :
  forallb ramp_frames_binary64 (seqZ 0 1441) = true.
Proof. vm_compute. reflexivity. Qed.

(** The frame count on a grid, in binary64 at the cadence of the file. *)
Lemma frame_count_grid (h m : Z) :
  1 <= h <= 500 -> 0 <= m <= 1440 ->
  exists r : ClawRunData spec_float,
    setrun (Int (60 * m)) AsWritten.N_gauges 1 (Int h) AsWritten.step
      AsWritten.tout "geoclaw" = inr r /\
    clawdata r !! "nout" = Some (VNum (Int (4 * h + (m + 14) / 15))).
Proof.
  intros Hh Hm.
  pose proof (forallb_seqZ _ _ _ hours_frames_all h ltac:(lia)) as Hc1.
  pose proof (forallb_seqZ _ _ _ ramp_frames_all m ltac:(lia)) as Hc2.
  unfold hours_frames_binary64 in Hc1. unfold ramp_frames_binary64 in Hc2.
  destruct (let* q := py_div (F:=spec_float) (Int h) AsWritten.step in py_int q)
    as [e | a] eqn:Ha; [discriminate Hc1 |].
  destruct (py_mul (F:=spec_float) (Int h) (py_sq (lit 60 0)))
    as [e | tf] eqn:Htf; [discriminate Hc1 |].
  apply Z.eqb_eq in Hc1. subst a.
  match type of Hc2 with
  | match ?m with _ => _ end = true => destruct m as [e | b] eqn:Hb
  end; [discriminate Hc2 |].
  apply Z.eqb_eq in Hc2. subst b.
  destruct (setgeo_binary64 21 (new_ClawRunData "geoclaw" 2) ∅ ltac:(lia)
              eq_refl) as (g & Hgeo & _).
  destruct (setrun_style1_returns (F:=spec_float) (Int (60 * m)) (Int h)
              AsWritten.step AsWritten.N_gauges AsWritten.tout "geoclaw" _
              (4 * h) ((m + 14) / 15) tf eq_refl Hgeo Ha Hb Htf)
    as (r & Hrun & _ & _ & Hnout & _).
  exists r. split; [exact Hrun | exact Hnout].
Qed.

(** In binary64, at the cadence 0.25 of the file, for whole hours from
    1 to 500 and a ramp-up time of whole minutes from 0 to 1440 (one
    day), style 1 gives [nout] = 4 * hours + minutes / 15 rounded up,
    so that the frame count does not decrease when the hours or the
    ramp-up time grow. *)
Theorem frame_count_monotone_binary64 (h h' m m' : Z) :
  1 <= h -> h <= h' -> h' <= 500 -> 0 <= m -> m <= m' -> m' <= 1440 ->
  exists (r r' : ClawRunData spec_float) (n n' : Z),
    setrun (Int (60 * m)) AsWritten.N_gauges 1 (Int h) AsWritten.step
      AsWritten.tout "geoclaw" = inr r /\
    setrun (Int (60 * m')) AsWritten.N_gauges 1 (Int h') AsWritten.step
      AsWritten.tout "geoclaw" = inr r' /\
    clawdata r !! "nout" = Some (VNum (Int n)) /\
    clawdata r' !! "nout" = Some (VNum (Int n')) /\
    n = 4 * h + (m + 14) / 15 /\ n' = 4 * h' + (m' + 14) / 15 /\ n <= n'.
Proof.
  intros Hh1 Hh Hh' Hm0 Hm Hm'.
  destruct (frame_count_grid h m ltac:(lia) ltac:(lia)) as (r & Hr & Hn).
  destruct (frame_count_grid h' m' ltac:(lia) ltac:(lia)) as (r' & Hr' & Hn').
  exists r, r'. eexists _, _.
  split; [exact Hr |]. split; [exact Hr' |].
  split; [exact Hn |]. split; [exact Hn' |].
  split; [reflexivity |]. split; [reflexivity |].
  assert ((m + 14) / 15 <= (m' + 14) / 15) by (apply Z.div_le_mono; lia).
  lia.
Qed.

Lemma frame_count_monotone_binary64_witness :
  exists (r r' : ClawRunData spec_float) (n n' : Z),
    setrun (Int (60 * 720)) AsWritten.N_gauges 1 (Int 40) AsWritten.step
      AsWritten.tout "geoclaw" = inr r /\
    setrun (Int (60 * 721)) AsWritten.N_gauges 1 (Int 41) AsWritten.step
      AsWritten.tout "geoclaw" = inr r' /\
    clawdata r !! "nout" = Some (VNum (Int n)) /\
    clawdata r' !! "nout" = Some (VNum (Int n')) /\
    n = 208 /\ n' = 213 /\ n <= n'.
Proof.
  apply (frame_count_monotone_binary64 40 41 720 721); lia.
Defined.

Lemma to_int_ceil_of_Z (k : Z) :
  0 <= k < 2 ^ 53 -> B64.to_int (B64.ceil (B64.of_Z k)) = inr k.
Proof.
  intros Hk. destruct (Z.eq_dec k 0) as [-> | Hk0]; [reflexivity |].
  destruct (of_Z_exact k ltac:(lia)) as (mz & e & Hof & He & Hmz).
  rewrite Hof. cbn [B64.ceil].
  destruct (Z.leb_spec 0 e) as [He0 | He0].
  - rewrite <- Hof. by apply to_int_of_Z.
  - assert (0 < 2 ^ (- e)) as Hpow by (apply Z.pow_pos_nonneg; lia).
    rewrite Hmz, Z.mod_mul, Z.div_mul by lia.
    cbn [Z.eqb]. by apply to_int_of_Z.
Qed.

(** With an integer cadence and integer hours and ramp-up time, both
    terms of line 116 are floor divisions of Python 2: in binary64,
    [nout] is hours / step + RAMP_UP_TIME / (step * 3600), both rounded
    down, so that [np.ceil] rounds nothing up; [tfinal] is the double
    hours * 3600.0. *)
Lemma style1_integer_cadence (t h c N : Z) (tout : list (num spec_float)) :
  N + 1 < 2 ^ 53 ->
  0 < h < 2 ^ 53 -> c <> 0 -> 0 <= t / (c * 3600) < 2 ^ 53 ->
  exists r : ClawRunData spec_float,
    setrun (Int t) N 1 (Int h) (Int c) tout "geoclaw" = inr r /\
    clawdata r !! "nout" = Some (VNum (Int (h / c + t / (c * 3600)))) /\
    clawdata r !! "tfinal" =
      Some (VNum (Float (SFmul B64.prec B64.emax (B64.of_Z h) (B64.of_Z 3600)))).
Proof.
  intros HN Hh Hc Ht.
  destruct (setgeo_binary64 N (new_ClawRunData "geoclaw" 2) ∅ HN eq_refl)
    as (g & Hgeo & _).
  destruct (of_int_returns h Hh) as [Hof _].
  destruct (setrun_style1_returns (F:=spec_float) (Int t) (Int h) (Int c) N tout
              "geoclaw" _ (h / c) (t / (c * 3600))
              (Float (SFmul B64.prec B64.emax (B64.of_Z h) (B64.of_Z 3600)))
              eq_refl Hgeo) as (r & Hrun & _ & _ & Hnout & Htf).
  - cbn [py_div]. apply Z.eqb_neq in Hc. rewrite Hc. reflexivity.
  - cbn [py_mul py_sq bind ret py_div].
    replace (c * 60 ^ 2) with (c * 3600) by lia.
    assert (c * 3600 <> 0) as Hd by lia.
    apply Z.eqb_neq in Hd. rewrite Hd.
    cbn [bind ret py_ceil to_float float_of_int b64_float].
    assert (0 <= t / (c * 3600) < 2 ^ 53) as Hq by lia.
    destruct (Z.eq_dec (t / (c * 3600)) 0) as [-> | Hq0]; [reflexivity |].
    unfold py_ceil. cbn [to_float float_of_int b64_float].
    destruct (of_int_returns (t / (c * 3600)) ltac:(lia)) as [-> _].
    cbn [bind ret py_int np_ceil int_of_float b64_float].
    by apply to_int_ceil_of_Z.
  - cbn [py_mul py_sq lit to_float float_of_int b64_float].
    rewrite Hof. reflexivity.
  - exists r. split; [exact Hrun |]. split; [exact Hnout | exact Htf].
Qed.
